(** * Verification of the live session manager and audio capture bridge
    of cheating-daddy-ts ([src/src/preload/index.ts], GeminiService).

    The service is a single mutable object (class fields, or closure
    variables in the factory variant).  We embed it as a record [Svc]
    threaded explicitly through every operation.  Asynchronous methods are
    cut at their [await] points into atomic segments; the environment
    (transport, renderer, timers, IPC) chooses which segment runs next, so
    an arbitrary list of [Event]s over-approximates every interleaving. *)

From Stdlib Require Import List String Ascii Arith Lia ZArith NArith Bool.
From Stdlib Require Import Strings.Byte.
Import ListNotations.
Open Scope list_scope.
Open Scope string_scope.
Open Scope nat_scope.

(** ** JavaScript string helpers *)

(** JS truthiness of a string: only [""] is falsy. *)
Definition truthy (s : string) : bool := negb (String.eqb s "").

(** Characters removed by [String.prototype.trim], restricted to code units
    below 256: TAB, LF, VT, FF, CR, SPACE and NO-BREAK SPACE. *)
Definition is_js_ws (c : ascii) : bool :=
  let n := nat_of_ascii c in
  (9 <=? n) && (n <=? 13) || (n =? 32) || (n =? 160).

Fixpoint drop_ws (l : list ascii) : list ascii :=
  match l with
  | [] => []
  | c :: l' => if is_js_ws c then drop_ws l' else l
  end.

(** [s.trim()] *)
Definition trim (s : string) : string :=
  string_of_list_ascii
    (rev (drop_ws (rev (drop_ws (list_ascii_of_string s))))).

Fixpoint starts_with (s p : string) : bool :=
  match p, s with
  | EmptyString, _ => true
  | String c p', String d s' => Ascii.eqb c d && starts_with s' p'
  | String _ _, EmptyString => false
  end.

(** [s.includes(p)] *)
Fixpoint includes (s p : string) : bool :=
  starts_with s p ||
  match s with
  | EmptyString => false
  | String _ s' => includes s' p
  end.

(** [xs.join(sep)] *)
Fixpoint join (sep : string) (xs : list string) : string :=
  match xs with
  | [] => ""
  | [x] => x
  | x :: xs' => x ++ sep ++ join sep xs'
  end.

(** ** Data model *)

(** [ConversationTurn] of [@shared/types]. *)
Record ConversationTurn := mkTurn {
  timestamp : Z;
  transcription : string;
  ai_response : string
}.

(** [interface ReconnectionParams] *)
Record ReconnectionParams := mkParams {
  apiKey : string;
  customPrompt : string;
  profile : string;
  language : string
}.

(** Data sent on a renderer channel by [sendToRenderer]. *)
Inductive Payload :=
| PStr (s : string)
| PBool (b : bool)
| PTurnSaved (sessionId : option Z) (turn : ConversationTurn)
             (fullHistory : list ConversationTurn).

(** Argument of [session.sendRealtimeInput]. *)
Inductive RealtimeInput :=
| InAudio (data mimeType : string)
| InMedia (data mimeType : string)
| InText (text : string).

(** The service state: the fields of [class GeminiService].
    [currentSession] is the transport handle (null = [None]);
    [currentSessionId] holds [Date.now()] (its [toString] is injective).
    [windowOpen] says whether [BrowserWindow.getAllWindows()] is non-empty.
    The last three fields record the observable effects: messages sent to
    the renderer, inputs sent to transports, and the
    ["Attempting reconnection n/3"] console line of [attemptReconnection]. *)
Record Svc := {
  currentSession : option nat;
  currentSessionId : option Z;
  currentTranscription : string;
  conversationHistory : list ConversationTurn;
  isInitializingSession : bool;
  systemAudioProc : option nat;
  messageBuffer : string;
  reconnectionAttempts : nat;
  lastSessionParams : option ReconnectionParams;
  windowOpen : bool;
  rendererLog : list (string * Payload);
  transportLog : list (nat * RealtimeInput);
  reconnectionLog : list nat
}.

Definition maxReconnectionAttempts : nat := 3.

Definition set_currentSession (v : option nat) (s : Svc) : Svc :=
  {| currentSession := v;
     currentSessionId := currentSessionId s;
     currentTranscription := currentTranscription s;
     conversationHistory := conversationHistory s;
     isInitializingSession := isInitializingSession s;
     systemAudioProc := systemAudioProc s;
     messageBuffer := messageBuffer s;
     reconnectionAttempts := reconnectionAttempts s;
     lastSessionParams := lastSessionParams s;
     windowOpen := windowOpen s;
     rendererLog := rendererLog s;
     transportLog := transportLog s;
     reconnectionLog := reconnectionLog s |}.

Definition set_currentSessionId (v : option Z) (s : Svc) : Svc :=
  {| currentSession := currentSession s;
     currentSessionId := v;
     currentTranscription := currentTranscription s;
     conversationHistory := conversationHistory s;
     isInitializingSession := isInitializingSession s;
     systemAudioProc := systemAudioProc s;
     messageBuffer := messageBuffer s;
     reconnectionAttempts := reconnectionAttempts s;
     lastSessionParams := lastSessionParams s;
     windowOpen := windowOpen s;
     rendererLog := rendererLog s;
     transportLog := transportLog s;
     reconnectionLog := reconnectionLog s |}.

Definition set_currentTranscription (v : string) (s : Svc) : Svc :=
  {| currentSession := currentSession s;
     currentSessionId := currentSessionId s;
     currentTranscription := v;
     conversationHistory := conversationHistory s;
     isInitializingSession := isInitializingSession s;
     systemAudioProc := systemAudioProc s;
     messageBuffer := messageBuffer s;
     reconnectionAttempts := reconnectionAttempts s;
     lastSessionParams := lastSessionParams s;
     windowOpen := windowOpen s;
     rendererLog := rendererLog s;
     transportLog := transportLog s;
     reconnectionLog := reconnectionLog s |}.

Definition set_conversationHistory (v : list ConversationTurn) (s : Svc) : Svc :=
  {| currentSession := currentSession s;
     currentSessionId := currentSessionId s;
     currentTranscription := currentTranscription s;
     conversationHistory := v;
     isInitializingSession := isInitializingSession s;
     systemAudioProc := systemAudioProc s;
     messageBuffer := messageBuffer s;
     reconnectionAttempts := reconnectionAttempts s;
     lastSessionParams := lastSessionParams s;
     windowOpen := windowOpen s;
     rendererLog := rendererLog s;
     transportLog := transportLog s;
     reconnectionLog := reconnectionLog s |}.

Definition set_isInitializingSession (v : bool) (s : Svc) : Svc :=
  {| currentSession := currentSession s;
     currentSessionId := currentSessionId s;
     currentTranscription := currentTranscription s;
     conversationHistory := conversationHistory s;
     isInitializingSession := v;
     systemAudioProc := systemAudioProc s;
     messageBuffer := messageBuffer s;
     reconnectionAttempts := reconnectionAttempts s;
     lastSessionParams := lastSessionParams s;
     windowOpen := windowOpen s;
     rendererLog := rendererLog s;
     transportLog := transportLog s;
     reconnectionLog := reconnectionLog s |}.

Definition set_systemAudioProc (v : option nat) (s : Svc) : Svc :=
  {| currentSession := currentSession s;
     currentSessionId := currentSessionId s;
     currentTranscription := currentTranscription s;
     conversationHistory := conversationHistory s;
     isInitializingSession := isInitializingSession s;
     systemAudioProc := v;
     messageBuffer := messageBuffer s;
     reconnectionAttempts := reconnectionAttempts s;
     lastSessionParams := lastSessionParams s;
     windowOpen := windowOpen s;
     rendererLog := rendererLog s;
     transportLog := transportLog s;
     reconnectionLog := reconnectionLog s |}.

Definition set_messageBuffer (v : string) (s : Svc) : Svc :=
  {| currentSession := currentSession s;
     currentSessionId := currentSessionId s;
     currentTranscription := currentTranscription s;
     conversationHistory := conversationHistory s;
     isInitializingSession := isInitializingSession s;
     systemAudioProc := systemAudioProc s;
     messageBuffer := v;
     reconnectionAttempts := reconnectionAttempts s;
     lastSessionParams := lastSessionParams s;
     windowOpen := windowOpen s;
     rendererLog := rendererLog s;
     transportLog := transportLog s;
     reconnectionLog := reconnectionLog s |}.

Definition set_reconnectionAttempts (v : nat) (s : Svc) : Svc :=
  {| currentSession := currentSession s;
     currentSessionId := currentSessionId s;
     currentTranscription := currentTranscription s;
     conversationHistory := conversationHistory s;
     isInitializingSession := isInitializingSession s;
     systemAudioProc := systemAudioProc s;
     messageBuffer := messageBuffer s;
     reconnectionAttempts := v;
     lastSessionParams := lastSessionParams s;
     windowOpen := windowOpen s;
     rendererLog := rendererLog s;
     transportLog := transportLog s;
     reconnectionLog := reconnectionLog s |}.

Definition set_lastSessionParams (v : option ReconnectionParams) (s : Svc) : Svc :=
  {| currentSession := currentSession s;
     currentSessionId := currentSessionId s;
     currentTranscription := currentTranscription s;
     conversationHistory := conversationHistory s;
     isInitializingSession := isInitializingSession s;
     systemAudioProc := systemAudioProc s;
     messageBuffer := messageBuffer s;
     reconnectionAttempts := reconnectionAttempts s;
     lastSessionParams := v;
     windowOpen := windowOpen s;
     rendererLog := rendererLog s;
     transportLog := transportLog s;
     reconnectionLog := reconnectionLog s |}.

Definition set_rendererLog (v : list (string * Payload)) (s : Svc) : Svc :=
  {| currentSession := currentSession s;
     currentSessionId := currentSessionId s;
     currentTranscription := currentTranscription s;
     conversationHistory := conversationHistory s;
     isInitializingSession := isInitializingSession s;
     systemAudioProc := systemAudioProc s;
     messageBuffer := messageBuffer s;
     reconnectionAttempts := reconnectionAttempts s;
     lastSessionParams := lastSessionParams s;
     windowOpen := windowOpen s;
     rendererLog := v;
     transportLog := transportLog s;
     reconnectionLog := reconnectionLog s |}.

Definition set_transportLog (v : list (nat * RealtimeInput)) (s : Svc) : Svc :=
  {| currentSession := currentSession s;
     currentSessionId := currentSessionId s;
     currentTranscription := currentTranscription s;
     conversationHistory := conversationHistory s;
     isInitializingSession := isInitializingSession s;
     systemAudioProc := systemAudioProc s;
     messageBuffer := messageBuffer s;
     reconnectionAttempts := reconnectionAttempts s;
     lastSessionParams := lastSessionParams s;
     windowOpen := windowOpen s;
     rendererLog := rendererLog s;
     transportLog := v;
     reconnectionLog := reconnectionLog s |}.

Definition set_reconnectionLog (v : list nat) (s : Svc) : Svc :=
  {| currentSession := currentSession s;
     currentSessionId := currentSessionId s;
     currentTranscription := currentTranscription s;
     conversationHistory := conversationHistory s;
     isInitializingSession := isInitializingSession s;
     systemAudioProc := systemAudioProc s;
     messageBuffer := messageBuffer s;
     reconnectionAttempts := reconnectionAttempts s;
     lastSessionParams := lastSessionParams s;
     windowOpen := windowOpen s;
     rendererLog := rendererLog s;
     transportLog := transportLog s;
     reconnectionLog := v |}.

(** ** Operations of GeminiService *)

Definition nl : string := String (ascii_of_nat 10) EmptyString.

(** [sendToRenderer(channel, data)]: sent to the first window, if any. *)
Definition sendToRenderer (channel : string) (data : Payload) (s : Svc) : Svc :=
  if windowOpen s
  then set_rendererLog (app (rendererLog s) [(channel, data)]) s
  else s.

Definition status (msg : string) (s : Svc) : Svc :=
  sendToRenderer "update-status" (PStr msg) s.

(** [initializeNewSession()]; [now] is [Date.now()]. *)
Definition initializeNewSession (now : Z) (s : Svc) : Svc :=
  set_conversationHistory []
    (set_currentTranscription "" (set_currentSessionId (Some now) s)).

(** [saveConversationTurn(transcription, aiResponse)] *)
Definition saveConversationTurn (now : Z) (tr aiResponse : string) (s : Svc)
  : Svc :=
  let s := match currentSessionId s with
           | None => initializeNewSession now s
           | Some _ => s
           end in
  let conversationTurn := mkTurn now (trim tr) (trim aiResponse) in
  let s := set_conversationHistory
             (app (conversationHistory s) [conversationTurn]) s in
  sendToRenderer "save-conversation-turn"
    (PTurnSaved (currentSessionId s) conversationTurn (conversationHistory s)) s.

(** The [transcriptions] array of [sendReconnectionContext]. *)
Definition replayedTranscriptions (h : list ConversationTurn) : list string :=
  filter (fun t => truthy t && (0 <? String.length (trim t)))
    (map transcription h).

Definition contextPrefix : string :=
  "Till now all these questions were asked in the interview, answer the last one please:"
  ++ nl ++ nl.

(** [sendReconnectionContext()]; a failure of [sendRealtimeInput] is caught
    and only logged, so the input is recorded either way. *)
Definition sendReconnectionContext (s : Svc) : Svc :=
  match currentSession s with
  | None => s
  | Some h =>
    match conversationHistory s with
    | [] => s
    | _ =>
      match replayedTranscriptions (conversationHistory s) with
      | [] => s
      | ts =>
        set_transportLog
          (app (transportLog s) [(h, InText (contextPrefix ++ join nl ts))]) s
      end
    end
  end.

(** The [isApiKeyError] test of [onerror] / [onclose] on [e.message] /
    [e.reason] ([None] when the property is undefined). *)
Definition isApiKeyError (text : option string) : bool :=
  match text with
  | None => false
  | Some t =>
    truthy t &&
    (includes t "API key not valid" || includes t "invalid API key" ||
     includes t "authentication failed" || includes t "unauthorized")
  end.

(** The reading of the auth-failure test given in the specification: a
    case-insensitive substring match against a fixed list of phrases.  It is
    not used by the code; it serves to compare with [isApiKeyError]. *)
Definition lower_ascii (c : ascii) : ascii :=
  let n := nat_of_ascii c in
  if (65 <=? n) && (n <=? 90) then ascii_of_nat (n + 32) else c.

Fixpoint lower (s : string) : string :=
  match s with
  | EmptyString => EmptyString
  | String c s' => String (lower_ascii c) (lower s')
  end.

Definition authFailure_ci (text : option string) : bool :=
  match text with
  | None => false
  | Some t =>
    let l := lower t in
    includes l "api key not valid" || includes l "invalid api key" ||
    includes l "authentication failed" || includes l "unauthorized"
  end.

(** String conversion of a possibly undefined property. *)
Definition js_string (v : option string) : string :=
  match v with Some t => t | None => "undefined" end.

(** First segment of [initializeGeminiSession(apiKey, customPrompt, profile,
    language, isReconnection)], up to [await this.getEnabledTools()].
    The boolean is [false] when the call returns [false] at once
    (an initialization is already in progress). *)
Definition initializeGeminiSession_begin (isReconnection : bool)
  (p : ReconnectionParams) (s : Svc) : Svc * bool :=
  if isInitializingSession s then (s, false)
  else
    let s := set_isInitializingSession true s in
    let s := sendToRenderer "session-initializing" (PBool true) s in
    let s := if isReconnection then s
             else set_reconnectionAttempts 0 (set_lastSessionParams (Some p) s) in
    (s, true).

(** Second segment: tools resolved, up to [await client.live.connect(...)]. *)
Definition initializeGeminiSession_tools (isReconnection : bool) (now : Z)
  (s : Svc) : Svc :=
  if isReconnection then s else initializeNewSession now s.

(** Last segment: [client.live.connect] settled, with a session or by throwing. *)
Definition initializeGeminiSession_end (s : Svc) : Svc :=
  sendToRenderer "session-initializing" (PBool false)
    (set_isInitializingSession false s).

(** First segment of [attemptReconnection()], up to the delay timer. *)
Definition attemptReconnection_begin (s : Svc) : Svc :=
  match lastSessionParams s with
  | Some _ =>
    if reconnectionAttempts s <? maxReconnectionAttempts then
      let n := S (reconnectionAttempts s) in
      set_reconnectionLog (app (reconnectionLog s) [n])
        (set_reconnectionAttempts n s)
    else status "Session closed" s
  | None => status "Session closed" s
  end.

(** Tail of [attemptReconnection()] once an attempt failed: retry or give up. *)
Definition attemptReconnection_retry (s : Svc) : Svc :=
  if reconnectionAttempts s <? maxReconnectionAttempts
  then attemptReconnection_begin s
  else status "Session closed" s.

(** Segment after the delay: reading [this.lastSessionParams.apiKey] throws
    (and is caught) when the params are null; otherwise
    [initializeGeminiSession(..., true)] starts, and a synchronous [false]
    from it counts as a failed attempt. *)
Definition attemptReconnection_afterDelay (s : Svc) : Svc :=
  match lastSessionParams s with
  | None => attemptReconnection_retry s
  | Some p =>
    let '(s, started) := initializeGeminiSession_begin true p s in
    if started then s else attemptReconnection_retry s
  end.

(** Segment after the reconnection's [client.live.connect] settled. *)
Definition attemptReconnection_connected (res : option nat) (s : Svc) : Svc :=
  let s := initializeGeminiSession_end s in
  match res with
  | Some h =>
    sendReconnectionContext
      (set_reconnectionAttempts 0 (set_currentSession (Some h) s))
  | None => attemptReconnection_retry s
  end.

(** Segment of the [initialize-gemini] IPC handler after connect settled. *)
Definition initializeGemini_connected (res : option nat) (s : Svc) : Svc :=
  let s := initializeGeminiSession_end s in
  match res with
  | Some h => set_currentSession (Some h) s
  | None => s
  end.

(** A server message, flattened: [serverContent?.inputTranscription?.text],
    the [text] of each part of [serverContent?.modelTurn?.parts],
    [serverContent?.generationComplete] and [serverContent?.turnComplete]. *)
Record Message := mkMessage {
  inputTranscription : option string;
  modelTurnParts : option (list (option string));
  generationComplete : bool;
  turnComplete : bool
}.

Definition addPart (s : Svc) (part : option string) : Svc :=
  match part with
  | Some t => if truthy t then set_messageBuffer (messageBuffer s ++ t) s else s
  | None => s
  end.

(** The accumulation part of [onmessage]. *)
Definition onmessage_accumulate (m : Message) (s : Svc) : Svc :=
  let s := match inputTranscription m with
           | Some t =>
             if truthy t
             then set_currentTranscription (currentTranscription s ++ t) s
             else s
           | None => s
           end in
  match modelTurnParts m with
  | Some parts => fold_left addPart parts s
  | None => s
  end.

(** The [onmessage] callback; [now] is the [Date.now()] of the turn. *)
Definition onmessage (now : Z) (m : Message) (s : Svc) : Svc :=
  let s := onmessage_accumulate m s in
  let s :=
    if generationComplete m then
      let s := sendToRenderer "update-response" (PStr (messageBuffer s)) s in
      let s :=
        if truthy (currentTranscription s) && truthy (messageBuffer s)
        then set_currentTranscription ""
               (saveConversationTurn now (currentTranscription s)
                  (messageBuffer s) s)
        else s in
      set_messageBuffer "" s
    else s in
  if turnComplete m then status "Listening..." s else s.

(** The [onerror] callback on [e.message]. *)
Definition onerror (message : option string) (s : Svc) : Svc :=
  if isApiKeyError message then
    status "Error: Invalid API key"
      (set_reconnectionAttempts maxReconnectionAttempts
         (set_lastSessionParams None s))
  else status ("Error: " ++ js_string message) s.

(** The [onclose] callback on [e.reason]. *)
Definition onclose (reason : option string) (s : Svc) : Svc :=
  if isApiKeyError reason then
    status "Session closed: Invalid API key"
      (set_reconnectionAttempts maxReconnectionAttempts
         (set_lastSessionParams None s))
  else
    match lastSessionParams s with
    | Some _ =>
      if reconnectionAttempts s <? maxReconnectionAttempts
      then attemptReconnection_begin s
      else status "Session closed" s
    | None => status "Session closed" s
    end.

(** [stopMacOSAudioCapture()] *)
Definition stopMacOSAudioCapture (s : Svc) : Svc :=
  match systemAudioProc s with
  | Some _ => set_systemAudioProc None s
  | None => s
  end.

(** [IpcResult]: [{ success: true }] or [{ success: false, error }]. *)
Inductive IpcResult := IpcOk | IpcErr (error : string).

Definition sendInput (h : nat) (i : RealtimeInput) (s : Svc) : Svc :=
  set_transportLog (app (transportLog s) [(h, i)]) s.

(** Result of an awaited [sendRealtimeInput]: [sendError] is the message of
    the exception it throws, if any (caught by the handler). *)
Definition sendResult (sendError : option string) : IpcResult :=
  match sendError with None => IpcOk | Some e => IpcErr e end.

(** [send-audio-content] handler. *)
Definition sendAudioContent (sendError : option string) (data mimeType : string)
  (s : Svc) : Svc * IpcResult :=
  match currentSession s with
  | None => (s, IpcErr "No active Gemini session")
  | Some h => (sendInput h (InAudio data mimeType) s, sendResult sendError)
  end.

(** [send-image-content] handler; [decode] is [Buffer.from(_, 'base64')]. *)
Definition sendImageContent (decode : string -> list byte)
  (sendError : option string) (data : string) (s : Svc) : Svc * IpcResult :=
  match currentSession s with
  | None => (s, IpcErr "No active Gemini session")
  | Some h =>
    if negb (truthy data) then (s, IpcErr "Invalid image data")
    else if List.length (decode data) <? 1000 then (s, IpcErr "Image buffer too small")
    else (sendInput h (InMedia data "image/jpeg") s, sendResult sendError)
  end.

(** [send-text-message] handler. *)
Definition sendTextMessage (sendError : option string) (text : string)
  (s : Svc) : Svc * IpcResult :=
  match currentSession s with
  | None => (s, IpcErr "No active Gemini session")
  | Some h =>
    if negb (truthy text) || (String.length (trim text) =? 0)
    then (s, IpcErr "Invalid text message")
    else (sendInput h (InText (trim text)) s, sendResult sendError)
  end.

(** [close-session] handler; [closeError] is the message of the exception
    thrown by [this.currentSession.close()], if any. *)
Definition closeSession (closeError : option string) (s : Svc)
  : Svc * IpcResult :=
  let s := stopMacOSAudioCapture s in
  let s := set_lastSessionParams None s in
  match currentSession s with
  | None => (s, IpcOk)
  | Some _ =>
    match closeError with
    | None => (set_currentSession None s, IpcOk)
    | Some e => (s, IpcErr e)
    end
  end.

(** ** Events and runs *)

(** Atomic segments the environment may run, in any order. *)
Inductive Event :=
| EvInitialize (p : ReconnectionParams)     (* initialize-gemini IPC call *)
| EvToolsResolved (isReconnection : bool) (now : Z)
| EvInitConnected (res : option nat)        (* its connect settled *)
| EvOpen
| EvMessage (now : Z) (m : Message)
| EvError (message : option string)
| EvClose (reason : option string)
| EvReconnDelayDone
| EvReconnConnected (res : option nat)      (* a reconnection's connect settled *)
| EvCloseSession (closeError : option string)
| EvStartNewSession (now : Z)
| EvAudioSpawned (h : nat)
| EvAudioStop
| EvAudioExit.

Definition step (e : Event) (s : Svc) : Svc :=
  match e with
  | EvInitialize p => fst (initializeGeminiSession_begin false p s)
  | EvToolsResolved r now => initializeGeminiSession_tools r now s
  | EvInitConnected res => initializeGemini_connected res s
  | EvOpen => status "Live session connected" s
  | EvMessage now m => onmessage now m s
  | EvError msg => onerror msg s
  | EvClose reason => onclose reason s
  | EvReconnDelayDone => attemptReconnection_afterDelay s
  | EvReconnConnected res => attemptReconnection_connected res s
  | EvCloseSession err => fst (closeSession err s)
  | EvStartNewSession now => initializeNewSession now s
  | EvAudioSpawned h => set_systemAudioProc (Some h) s
  | EvAudioStop => stopMacOSAudioCapture s
  | EvAudioExit => set_systemAudioProc None s
  end.

Fixpoint run (es : list Event) (s : Svc) : Svc :=
  match es with
  | [] => s
  | e :: es' => run es' (step e s)
  end.

(** The object right after construction ([constructor] calls
    [initializeNewSession]). *)
Definition initial (now : Z) (w : bool) : Svc :=
  initializeNewSession now
    {| currentSession := None; currentSessionId := None;
       currentTranscription := ""; conversationHistory := [];
       isInitializingSession := false; systemAudioProc := None;
       messageBuffer := ""; reconnectionAttempts := 0;
       lastSessionParams := None; windowOpen := w;
       rendererLog := []; transportLog := []; reconnectionLog := [] |}.

(** ** A base64 decoder, for concrete inputs

    Model of [Buffer.from(s, 'base64')] on strings over the base64 alphabet
    (standard or url-safe); other characters, including ['='], are skipped.
    The handler theorems hold for any decoder. *)
Definition b64_value (c : ascii) : option nat :=
  let n := nat_of_ascii c in
  if (65 <=? n) && (n <=? 90) then Some (n - 65)
  else if (97 <=? n) && (n <=? 122) then Some (n - 71)
  else if (48 <=? n) && (n <=? 57) then Some (n + 4)
  else if (n =? 43) || (n =? 45) then Some 62
  else if (n =? 47) || (n =? 95) then Some 63
  else None.

Definition byte_of (n : N) : byte :=
  match Byte.of_N (N.modulo n 256) with Some b => b | None => x00 end.

Fixpoint sextets (s : string) : list N :=
  match s with
  | EmptyString => []
  | String c s' =>
    match b64_value c with
    | Some v => N.of_nat v :: sextets s'
    | None => sextets s'
    end
  end.

Fixpoint decode_sextets (l : list N) : list byte :=
  match l with
  | a :: b :: c :: d :: l' =>
    let v := (a * 262144 + b * 4096 + c * 64 + d)%N in
    byte_of (v / 65536) :: byte_of (v / 256) :: byte_of v :: decode_sextets l'
  | [a; b; c] =>
    let v := (a * 262144 + b * 4096 + c * 64)%N in
    [byte_of (v / 65536); byte_of (v / 256)]
  | [a; b] => [byte_of ((a * 262144 + b * 4096) / 65536)]
  | _ => []
  end.

Definition base64_decode (s : string) : list byte := decode_sextets (sextets s).

Example base64_decode_ex :
  base64_decode "aGk=" = [x68; x69].
Proof. reflexivity. Qed.

(** ** Audio capture bridge ([startMacOSAudioCapture]) *)

Set Warnings "-abstract-large-number".

Definition SAMPLE_RATE : nat := 24000.
Definition BYTES_PER_SAMPLE : nat := 2.
Definition CHANNELS : nat := 2.
(** [SAMPLE_RATE * BYTES_PER_SAMPLE * CHANNELS * CHUNK_DURATION] with
    [CHUNK_DURATION = 0.1]: the double product [96000 * 0.1] rounds to
    exactly [9600]. *)
Definition CHUNK_SIZE : nat := 9600.
Definition maxBufferSize : nat := SAMPLE_RATE * BYTES_PER_SAMPLE * 1.

Definition byte_of_Z (z : Z) : byte := byte_of (Z.to_N z).

(** [buf.readInt16LE(offset)] *)
Definition readInt16LE (b : list byte) (offset : nat) : Z :=
  let lo := Z.of_N (Byte.to_N (nth offset b x00)) in
  let hi := Z.of_N (Byte.to_N (nth (S offset) b x00)) in
  let u := (lo + 256 * hi)%Z in
  if (u >=? 32768)%Z then (u - 65536)%Z else u.

(** The two bytes [buf.writeInt16LE(v, offset)] stores. *)
Definition writeInt16LE (v : Z) : list byte :=
  [byte_of_Z (Z.land v 255); byte_of_Z (Z.land (Z.shiftr v 8) 255)].

(** [convertStereoToMono(stereoBuffer)]: iteration [i] writes at offset
    [i * 2] of the fresh mono buffer, so the buffer is the concatenation of
    the writes. *)
Definition convertStereoToMono (stereoBuffer : list byte) : list byte :=
  let samples := List.length stereoBuffer / 4 in
  List.concat (map (fun i => writeInt16LE (readInt16LE stereoBuffer (i * 4)))
              (seq 0 samples)).

(** The [while (audioBuffer.length >= CHUNK_SIZE)] loop: the frames handed
    to [sendAudioToGemini], in order, and the remaining buffer.  [fuel]
    bounds the iterations; the buffer length suffices as each iteration
    consumes [size > 0] bytes. *)
Fixpoint reframe (size : nat) (convert : list byte -> list byte) (fuel : nat)
  (audioBuffer : list byte) : list (list byte) * list byte :=
  match fuel with
  | 0 => ([], audioBuffer)
  | S fuel' =>
    if size <=? List.length audioBuffer then
      let chunk := firstn size audioBuffer in
      let '(frames, rest) :=
        reframe size convert fuel' (skipn size audioBuffer) in
      (convert chunk :: frames, rest)
    else ([], audioBuffer)
  end.

(** [if (audioBuffer.length > maxBufferSize)
       audioBuffer = audioBuffer.slice(-maxBufferSize)] *)
Definition capResidual (audioBuffer : list byte) : list byte :=
  if maxBufferSize <? List.length audioBuffer
  then skipn (List.length audioBuffer - maxBufferSize) audioBuffer
  else audioBuffer.

(** The [stdout] ['data'] handler on the closure's [audioBuffer]. *)
Definition onStdoutData (audioBuffer data : list byte)
  : list (list byte) * list byte :=
  let audioBuffer := app audioBuffer data in
  let '(frames, audioBuffer) :=
    reframe CHUNK_SIZE convertStereoToMono (List.length audioBuffer)
      audioBuffer in
  (frames, capResidual audioBuffer).

(** A sequence of ['data'] events from the buffer [audioBuffer]: all frames
    forwarded, in order, and the final buffer. *)
Fixpoint captureStream (audioBuffer : list byte) (events : list (list byte))
  : list (list byte) * list byte :=
  match events with
  | [] => ([], audioBuffer)
  | d :: ds =>
    let '(frames, audioBuffer') := onStdoutData audioBuffer d in
    let '(frames', audioBuffer'') := captureStream audioBuffer' ds in
    (app frames frames', audioBuffer'')
  end.

(** Spec side: the [N] consecutive slices of [size] bytes of a stream. *)
Definition slices (size : nat) (l : list byte) : list (list byte) :=
  map (fun k => firstn size (skipn (k * size) l))
      (seq 0 (List.length l / size)).

(** Spec side: the left 16-bit sample (bytes [4j], [4j+1]) of each stereo
    pair, without averaging. *)
Definition leftSamples (b : list byte) : list byte :=
  List.concat (map (fun j => [nth (4 * j) b x00; nth (4 * j + 1) b x00])
              (seq 0 (List.length b / 4))).

(** ** Further operations of GeminiService *)

(** [getCurrentSessionData()], the data of the [get-current-session]
    handler. *)
Definition getCurrentSessionData (s : Svc) : option Z * list ConversationTurn :=
  (currentSessionId s, conversationHistory s).

(** [start-new-session] handler: the new state and the [sessionId] it
    returns. *)
Definition startNewSession (now : Z) (s : Svc) : Svc * option Z :=
  let s := initializeNewSession now s in
  (s, currentSessionId s).

(** [sendAudioToGemini(base64Data)]: the session is read before the first
    [await]; a failure of [sendRealtimeInput] is caught and only logged. *)
Definition sendAudioToGemini (base64Data : string) (s : Svc) : Svc :=
  match currentSession s with
  | None => s
  | Some h => sendInput h (InAudio base64Data "audio/pcm;rate=24000") s
  end.

(** The stdout ['data'] handler with its effect on the service: each frame
    of the loop, converted by [toBase64] ([monoChunk.toString('base64')]),
    goes to [sendAudioToGemini] as it is cut.  Sending does not touch the
    closure's buffer, so cutting all frames first is the same. *)
Definition onStdoutData_send (toBase64 : list byte -> string)
  (audioBuffer data : list byte) (s : Svc) : list byte * Svc :=
  let '(frames, rest) := onStdoutData audioBuffer data in
  (rest, fold_left (fun s f => sendAudioToGemini (toBase64 f) s) frames s).

(** *** Settings: [getStoredSetting] and [getEnabledTools] *)

Inductive Tool := GoogleSearch.

(** The renderer page as the injected script sees it. *)
Inductive PageStorage :=
| StorageUndefined                        (* typeof localStorage === 'undefined' *)
| StorageThrows                           (* accessing localStorage throws *)
| StorageItems (items : list (string * string)).

(** [localStorage.getItem(key)] *)
Fixpoint getItem (key : string) (items : list (string * string))
  : option string :=
  match items with
  | [] => None
  | (k, v) :: items' => if String.eqb k key then Some v else getItem key items'
  end.

(** Value of the script [getStoredSetting] runs in the first window, for a
    [key] and [defaultValue] without quotes or backslashes (both are spliced
    into the script's source). *)
Definition storedSettingScript (key defaultValue : string) (ls : PageStorage)
  : string :=
  match ls with
  | StorageUndefined | StorageThrows => defaultValue
  | StorageItems items =>
    match getItem key items with
    | Some stored => if truthy stored then stored else defaultValue
    | None => defaultValue
    end
  end.

(** [getStoredSetting(key, defaultValue)]: [hasWindow] is
    [windows.length > 0]; [execOk] tells whether [executeJavaScript]
    resolves (a rejection is caught and the default returned). *)
Definition getStoredSetting (hasWindow execOk : bool) (ls : PageStorage)
  (key defaultValue : string) : string :=
  if hasWindow then
    if execOk then storedSettingScript key defaultValue ls else defaultValue
  else defaultValue.

(** [getEnabledTools()] *)
Definition getEnabledTools (hasWindow execOk : bool) (ls : PageStorage)
  : list Tool :=
  let googleSearchEnabled :=
    getStoredSetting hasWindow execOk ls "googleSearchEnabled" "true" in
  if String.eqb googleSearchEnabled "true" then [GoogleSearch] else [].

(** ** Renderer side *)

(** [sendTextMessage(text)] of [useMediaCapture]: a blank text is refused
    before the [send-text-message] handler is invoked. *)
Definition renderer_sendTextMessage (sendError : option string) (text : string)
  (s : Svc) : Svc * IpcResult :=
  if negb (truthy (trim text)) then (s, IpcErr "Empty message")
  else sendTextMessage sendError text s.

(** [calculateImageTokens(width, height)] on the canvas's integer
    dimensions; [Math.ceil(w / 768)] is [(w + 767) / 768] on naturals. *)
Definition calculateImageTokens (width height : nat) : nat :=
  if (width <=? 384) && (height <=? 384) then 258
  else
    let tilesX := (width + 767) / 768 in
    let tilesY := (height + 767) / 768 in
    tilesX * tilesY * 258.

(** *** Conversation storage ([useConversationStorage]) *)

(** A [ConversationSession] record of the ['sessions'] object store. *)
Record ConversationSession := mkConversationSession {
  cs_sessionId : Z;
  cs_timestamp : Z;
  cs_conversationHistory : list ConversationTurn;
  cs_lastUpdated : Z
}.

(** [store.put(record)] with key path [sessionId]: replaces the record of
    the same key. *)
Definition store_put (r : ConversationSession) (st : list ConversationSession)
  : list ConversationSession :=
  r :: filter (fun x => negb (Z.eqb (cs_sessionId x) (cs_sessionId r))) st.

(** [getConversationSession(sessionId)]: [store.get], [null] when absent. *)
Definition getConversationSession (sessionId : Z) (st : list ConversationSession)
  : option ConversationSession :=
  find (fun x => Z.eqb (cs_sessionId x) sessionId) st.

(** [saveConversationSession(sessionId, conversationHistory)]; [now] is the
    renderer's [Date.now()].  The id is [Date.now().toString()] in the main
    process, so [parseInt(sessionId)] gives it back.  A [null] id has no key:
    [store.put] throws, the promise rejects and the listener logs it. *)
Definition saveConversationSession (now : Z) (sessionId : option Z)
  (conversationHistory : list ConversationTurn) (st : list ConversationSession)
  : list ConversationSession :=
  match sessionId with
  | Some k => store_put (mkConversationSession k k conversationHistory now) st
  | None => st
  end.

(** The [saveConversationTurn] listener of the hook. *)
Definition onSaveConversationTurn (now : Z) (p : Payload)
  (st : list ConversationSession) : list ConversationSession :=
  match p with
  | PTurnSaved sid _ fullHistory => saveConversationSession now sid fullHistory st
  | _ => st
  end.

Definition is_save (m : string * Payload) : bool :=
  String.eqb (fst m) "save-conversation-turn".

(** The listener run on the ['save-conversation-turn'] messages, in order;
    [clock k] is the renderer's time at the [k]-th one. *)
Fixpoint replaySaves (clock : nat -> Z) (k : nat) (ms : list (string * Payload))
  (st : list ConversationSession) : list ConversationSession :=
  match ms with
  | [] => st
  | m :: ms' => replaySaves clock (S k) ms' (onSaveConversationTurn (clock k) (snd m) st)
  end.

(** The renderer's store once it handled the messages [log] of the main
    process, from an empty store. *)
Definition rendererStore (clock : nat -> Z) (log : list (string * Payload))
  : list ConversationSession :=
  replaySaves clock 0 (filter is_save log) [].

(** ** Debug WAV files ([src/src/main/audio/AudioUtils.ts]) *)

Definition obind {A B : Type} (o : option A) (f : A -> option B) : option B :=
  match o with Some a => f a | None => None end.

(** The bytes of an ASCII string. *)
Definition bytes_of_string (s : string) : list byte :=
  map (fun c => byte_of (N.of_nat (nat_of_ascii c))) (list_ascii_of_string s).

(** Copy [bs] into [buf] at [offset], keeping what fits. *)
Definition writeBytes (buf : list byte) (offset : nat) (bs : list byte)
  : list byte :=
  app (firstn offset buf)
    (app (firstn (List.length buf - offset) bs)
       (skipn (offset + List.length bs) buf)).

(** [buf.write(string, offset)] for an ASCII string; an offset past the end
    throws. *)
Definition writeString (buf : list byte) (s : string) (offset : nat)
  : option (list byte) :=
  if offset <=? List.length buf
  then Some (writeBytes buf offset (bytes_of_string s)) else None.

(** The [n] little-endian bytes of [v]. *)
Definition le_bytes (n : nat) (v : Z) : list byte :=
  map (fun i => byte_of_Z (Z.shiftr v (Z.of_nat (8 * i)))) (seq 0 n).

(** [buf.writeUInt32LE(value, offset)] ([n = 4]) and [writeUInt16LE]
    ([n = 2]) on integer values: RangeError unless [0 <= value < 2^(8n)] and
    the [n] bytes fit. *)
Definition writeUIntLE (n : nat) (buf : list byte) (value : Z) (offset : nat)
  : option (list byte) :=
  if (0 <=? value)%Z && (value <? 2 ^ Z.of_nat (8 * n))%Z &&
     (offset + n <=? List.length buf)
  then Some (writeBytes buf offset (le_bytes n value)) else None.

(** [pcmToWav(pcmBuffer, outputPath, sampleRate, channels, bitDepth)]: the
    bytes written to [outputPath], or [None] when a write throws.  The
    [bitDepth / 8] of the source is the integer division for bit depths that
    are multiples of 8 (the default 16 is the only one used). *)
Definition pcmToWav (pcmBuffer : list byte) (sampleRate channels bitDepth : Z)
  : option (list byte) :=
  let byteRate := (sampleRate * channels * (bitDepth / 8))%Z in
  let blockAlign := (channels * (bitDepth / 8))%Z in
  let dataSize := Z.of_nat (List.length pcmBuffer) in
  let header := repeat x00 44 in
  obind (writeString header "RIFF" 0) (fun header =>
  obind (writeUIntLE 4 header (dataSize + 36) 4) (fun header =>
  obind (writeString header "WAVE" 8) (fun header =>
  obind (writeString header "fmt " 12) (fun header =>
  obind (writeUIntLE 4 header 16 16) (fun header =>
  obind (writeUIntLE 2 header 1 20) (fun header =>
  obind (writeUIntLE 2 header channels 22) (fun header =>
  obind (writeUIntLE 4 header sampleRate 24) (fun header =>
  obind (writeUIntLE 4 header byteRate 28) (fun header =>
  obind (writeUIntLE 2 header blockAlign 32) (fun header =>
  obind (writeUIntLE 2 header bitDepth 34) (fun header =>
  obind (writeString header "data" 36) (fun header =>
  obind (writeUIntLE 4 header dataSize 40) (fun header =>
  Some (app header pcmBuffer)))))))))))))).

(** Readers used to state the layout: [buf.readUInt16LE(o)] and
    [buf.readUInt32LE(o)]. *)
Definition byteZ (buf : list byte) (i : nat) : Z :=
  Z.of_N (Byte.to_N (nth i buf x00)).

Definition readUInt16LE (buf : list byte) (o : nat) : Z :=
  (byteZ buf o + 256 * byteZ buf (o + 1))%Z.

Definition readUInt32LE (buf : list byte) (o : nat) : Z :=
  (byteZ buf o + 256 * byteZ buf (o + 1) + 65536 * byteZ buf (o + 2) +
   16777216 * byteZ buf (o + 3))%Z.

(** *** Further renderer and capture code *)

(** [deleteConversationSession(sessionId)]: [store.delete]. *)
Definition deleteConversationSession (sessionId : Z) (st : list ConversationSession)
  : list ConversationSession :=
  filter (fun x => negb (Z.eqb (cs_sessionId x) sessionId)) st.

(** The stdout ['data'] handler run on a sequence of events, from the
    buffer [audioBuffer], with its effect on the service. *)
Fixpoint captureStream_send (toBase64 : list byte -> string)
  (audioBuffer : list byte) (events : list (list byte)) (s : Svc)
  : list byte * Svc :=
  match events with
  | [] => (audioBuffer, s)
  | d :: ds =>
    let '(audioBuffer', s') := onStdoutData_send toBase64 audioBuffer d s in
    captureStream_send toBase64 audioBuffer' ds s'
  end.

(** The inputs [sendAudioToGemini] sends for [frames] on the session of [s]. *)
Definition audio_inputs (toBase64 : list byte -> string) (s : Svc)
  (frames : list (list byte)) : list (nat * RealtimeInput) :=
  match currentSession s with
  | Some h => map (fun f => (h, InAudio (toBase64 f) "audio/pcm;rate=24000")) frames
  | None => []
  end.

(** Events that start a new conversation: the tools of a first (not a
    reconnection) initialization resolved, and the start-new-session call. *)
Definition new_session_event (e : Event) : bool :=
  match e with
  | EvToolsResolved false _ | EvStartNewSession _ => true
  | _ => false
  end.

(** Events on which a pending [client.live.connect] settles. *)
Definition settles_init (e : Event) : bool :=
  match e with
  | EvInitConnected _ | EvReconnConnected _ => true
  | _ => false
  end.

(** No JavaScript white space at the head of a character list. *)
Definition ws_free_head (l : list ascii) : Prop :=
  match l with [] => True | c :: _ => is_js_ws c = false end.

(** ** The factory variant ([createGeminiService], lines 860-1517)

    [createGeminiService] keeps the service state in [let] variables of its
    closure instead of class fields.  Its embedding keeps the closure
    variables ([Vars]) apart from what the closure observes of, and does to,
    the outside world ([World]); each inner function is a computation in a
    small state monad over both, written from the factory's own source. *)
Module Factory.

(** The [let] variables of the closure (lines 862-873). *)
Record Vars := mkVars {
  currentSession : option nat;
  currentSessionId : option Z;
  currentTranscription : string;
  conversationHistory : list ConversationTurn;
  isInitializingSession : bool;
  systemAudioProc : option nat;
  messageBuffer : string;
  reconnectionAttempts : nat;
  lastSessionParams : option ReconnectionParams
}.

(** [const maxReconnectionAttempts = 3] *)
Definition maxReconnectionAttempts : nat := 3.

(** The world as the closure sees it: whether [BrowserWindow.getAllWindows()]
    is non-empty, the messages sent to the renderer, the inputs sent to
    transports, and the ["Attempting reconnection n/3"] console lines. *)
Record World := mkWorld {
  windowsOpen : bool;
  sentToRenderer : list (string * Payload);
  realtimeInputs : list (nat * RealtimeInput);
  attemptLines : list nat
}.

Definition M (A : Type) : Type := Vars -> World -> A * Vars * World.

Definition ret {A : Type} (a : A) : M A := fun x w => (a, x, w).

Definition bind {A B : Type} (m : M A) (k : A -> M B) : M B :=
  fun x w => let '(a, x', w') := m x w in k a x' w'.

Notation "a <- m ;; k" := (bind m (fun a => k))
  (at level 61, m at next level, right associativity).
Notation "m ;; k" := (bind m (fun _ => k))
  (at level 61, right associativity).

(** Reading and assigning closure variables. *)
Definition read {A : Type} (f : Vars -> A) : M A := fun x w => (f x, x, w).

Definition assign (f : Vars -> Vars) : M unit := fun x w => (tt, f x, w).

Definition set_currentSession (v : option nat) (x : Vars) : Vars :=
  mkVars v (currentSessionId x) (currentTranscription x) (conversationHistory x)
    (isInitializingSession x) (systemAudioProc x) (messageBuffer x)
    (reconnectionAttempts x) (lastSessionParams x).

Definition set_currentSessionId (v : option Z) (x : Vars) : Vars :=
  mkVars (currentSession x) v (currentTranscription x) (conversationHistory x)
    (isInitializingSession x) (systemAudioProc x) (messageBuffer x)
    (reconnectionAttempts x) (lastSessionParams x).

Definition set_currentTranscription (v : string) (x : Vars) : Vars :=
  mkVars (currentSession x) (currentSessionId x) v (conversationHistory x)
    (isInitializingSession x) (systemAudioProc x) (messageBuffer x)
    (reconnectionAttempts x) (lastSessionParams x).

Definition set_conversationHistory (v : list ConversationTurn) (x : Vars) : Vars :=
  mkVars (currentSession x) (currentSessionId x) (currentTranscription x) v
    (isInitializingSession x) (systemAudioProc x) (messageBuffer x)
    (reconnectionAttempts x) (lastSessionParams x).

Definition set_isInitializingSession (v : bool) (x : Vars) : Vars :=
  mkVars (currentSession x) (currentSessionId x) (currentTranscription x)
    (conversationHistory x) v (systemAudioProc x) (messageBuffer x)
    (reconnectionAttempts x) (lastSessionParams x).

Definition set_systemAudioProc (v : option nat) (x : Vars) : Vars :=
  mkVars (currentSession x) (currentSessionId x) (currentTranscription x)
    (conversationHistory x) (isInitializingSession x) v (messageBuffer x)
    (reconnectionAttempts x) (lastSessionParams x).

Definition set_messageBuffer (v : string) (x : Vars) : Vars :=
  mkVars (currentSession x) (currentSessionId x) (currentTranscription x)
    (conversationHistory x) (isInitializingSession x) (systemAudioProc x) v
    (reconnectionAttempts x) (lastSessionParams x).

Definition set_reconnectionAttempts (v : nat) (x : Vars) : Vars :=
  mkVars (currentSession x) (currentSessionId x) (currentTranscription x)
    (conversationHistory x) (isInitializingSession x) (systemAudioProc x)
    (messageBuffer x) v (lastSessionParams x).

Definition set_lastSessionParams (v : option ReconnectionParams) (x : Vars) : Vars :=
  mkVars (currentSession x) (currentSessionId x) (currentTranscription x)
    (conversationHistory x) (isInitializingSession x) (systemAudioProc x)
    (messageBuffer x) (reconnectionAttempts x) v.

(** JS [!v] on a nullable object. *)
Definition isNull {A : Type} (v : option A) : bool :=
  match v with None => true | Some _ => false end.

(** [sendToRenderer(channel, data)] (lines 875-880) *)
Definition sendToRenderer (channel : string) (data : Payload) : M unit :=
  fun x w =>
    (tt, x,
     if windowsOpen w
     then mkWorld (windowsOpen w) (app (sentToRenderer w) [(channel, data)])
            (realtimeInputs w) (attemptLines w)
     else w).

(** [session.sendRealtimeInput(input)] *)
Definition sendRealtimeInput (session : nat) (input : RealtimeInput) : M unit :=
  fun x w =>
    (tt, x, mkWorld (windowsOpen w) (sentToRenderer w)
              (app (realtimeInputs w) [(session, input)]) (attemptLines w)).

(** [console.log(`Attempting reconnection ${reconnectionAttempts}/...`)] *)
Definition logAttempt (n : nat) : M unit :=
  fun x w =>
    (tt, x, mkWorld (windowsOpen w) (sentToRenderer w) (realtimeInputs w)
              (app (attemptLines w) [n])).

(** [initializeNewSession()] (lines 882-887); [now] is [Date.now()]. *)
Definition initializeNewSession (now : Z) : M unit :=
  assign (set_currentSessionId (Some now)) ;;
  assign (set_currentTranscription "") ;;
  assign (set_conversationHistory []).

(** [saveConversationTurn(transcription, aiResponse)] (lines 889-909) *)
Definition saveConversationTurn (now : Z) (tr aiResponse : string) : M unit :=
  sid <- read currentSessionId ;;
  match sid with None => initializeNewSession now | Some _ => ret tt end ;;
  history <- read conversationHistory ;;
  assign (set_conversationHistory
            (app history [mkTurn now (trim tr) (trim aiResponse)])) ;;
  sid <- read currentSessionId ;;
  history <- read conversationHistory ;;
  sendToRenderer "save-conversation-turn"
    (PTurnSaved sid (mkTurn now (trim tr) (trim aiResponse)) history).

(** [sendReconnectionContext()] (lines 916-943); a failure of
    [sendRealtimeInput] is caught and only logged. *)
Definition sendReconnectionContext : M unit :=
  session <- read currentSession ;;
  history <- read conversationHistory ;;
  match session, history with
  | None, _ => ret tt
  | _, [] => ret tt
  | Some h, _ =>
    match filter (fun t => truthy t && (0 <? String.length (trim t)))
            (map transcription history) with
    | [] => ret tt
    | transcriptions =>
      sendRealtimeInput h
        (InText ("Till now all these questions were asked in the interview, answer the last one please:"
                 ++ nl ++ nl ++ join nl transcriptions))
    end
  end.

(** The [isApiKeyError] test that [onerror] and [onclose] compute on
    [e.message] / [e.reason]. *)
Definition isApiKeyError (text : option string) : bool :=
  match text with
  | None => false
  | Some t =>
    truthy t &&
    (includes t "API key not valid" || includes t "invalid API key" ||
     includes t "authentication failed" || includes t "unauthorized")
  end.

(** [initializeGeminiSession(...)] up to [await getEnabledTools()]
    (lines 1074-1106); [false] when it returns [false] at once. *)
Definition initializeGeminiSession_begin (isReconnection : bool)
  (p : ReconnectionParams) : M bool :=
  busy <- read isInitializingSession ;;
  if busy then ret false
  else
    (assign (set_isInitializingSession true) ;;
     sendToRenderer "session-initializing" (PBool true) ;;
     (if negb isReconnection
      then (assign (set_lastSessionParams (Some p)) ;;
            assign (set_reconnectionAttempts 0))
      else ret tt) ;;
     ret true).

(** Tools resolved, up to [await client.live.connect(...)]
    (lines 1107-1114). *)
Definition initializeGeminiSession_tools (isReconnection : bool) (now : Z)
  : M unit :=
  if negb isReconnection then initializeNewSession now else ret tt.

(** [client.live.connect] settled (lines 1216-1226). *)
Definition initializeGeminiSession_end : M unit :=
  assign (set_isInitializingSession false) ;;
  sendToRenderer "session-initializing" (PBool false).

(** [attemptReconnection()] up to the delay timer (lines 999-1010). *)
Definition attemptReconnection_begin : M unit :=
  params <- read lastSessionParams ;;
  attempts <- read reconnectionAttempts ;;
  if isNull params || (maxReconnectionAttempts <=? attempts)
  then sendToRenderer "update-status" (PStr "Session closed")
  else
    (assign (set_reconnectionAttempts (S attempts)) ;;
     attempts <- read reconnectionAttempts ;;
     logAttempt attempts).

(** The tail of [attemptReconnection()] after a failed attempt
    (lines 1035-1042). *)
Definition attemptReconnection_retry : M unit :=
  attempts <- read reconnectionAttempts ;;
  if attempts <? maxReconnectionAttempts
  then attemptReconnection_begin
  else sendToRenderer "update-status" (PStr "Session closed").

(** After the delay (lines 1012-1019): reading [lastSessionParams.apiKey]
    throws (caught) when the params are null. *)
Definition attemptReconnection_afterDelay : M unit :=
  params <- read lastSessionParams ;;
  match params with
  | None => attemptReconnection_retry
  | Some p =>
    session <- initializeGeminiSession_begin true p ;;
    if session then ret tt else attemptReconnection_retry
  end.

(** The reconnection's connect settled (lines 1021-1030). *)
Definition attemptReconnection_connected (res : option nat) : M unit :=
  initializeGeminiSession_end ;;
  match res with
  | Some h =>
    assign (set_currentSession (Some h)) ;;
    assign (set_reconnectionAttempts 0) ;;
    sendReconnectionContext
  | None => attemptReconnection_retry
  end.

(** The body of the [for (const part of ...parts)] loop of [onmessage]. *)
Definition addPart (part : option string) : M unit :=
  match part with
  | Some t =>
    if truthy t
    then (buffer <- read messageBuffer ;; assign (set_messageBuffer (buffer ++ t)))
    else ret tt
  | None => ret tt
  end.

Fixpoint forEach {A : Type} (xs : list A) (body : A -> M unit) : M unit :=
  match xs with
  | [] => ret tt
  | x :: xs' => body x ;; forEach xs' body
  end.

(** The accumulation part of [onmessage] (lines 1127-1139). *)
Definition onmessage_accumulate (m : Message) : M unit :=
  match inputTranscription m with
  | Some t =>
    if truthy t
    then (current <- read currentTranscription ;;
          assign (set_currentTranscription (current ++ t)))
    else ret tt
  | None => ret tt
  end ;;
  match modelTurnParts m with
  | Some parts => forEach parts addPart
  | None => ret tt
  end.

(** [onmessage] (lines 1123-1155) *)
Definition onmessage (now : Z) (m : Message) : M unit :=
  onmessage_accumulate m ;;
  (if generationComplete m
   then (buffer <- read messageBuffer ;;
         sendToRenderer "update-response" (PStr buffer) ;;
         current <- read currentTranscription ;;
         buffer <- read messageBuffer ;;
         (if truthy current && truthy buffer
          then (saveConversationTurn now current buffer ;;
                assign (set_currentTranscription ""))
          else ret tt) ;;
         assign (set_messageBuffer ""))
   else ret tt) ;;
  (if turnComplete m
   then sendToRenderer "update-status" (PStr "Listening...")
   else ret tt).

(** [onerror] (lines 1157-1177) *)
Definition onerror (message : option string) : M unit :=
  if isApiKeyError message
  then (assign (set_lastSessionParams None) ;;
        assign (set_reconnectionAttempts maxReconnectionAttempts) ;;
        sendToRenderer "update-status" (PStr "Error: Invalid API key"))
  else sendToRenderer "update-status" (PStr ("Error: " ++ js_string message)).

(** [onclose] (lines 1178-1204) *)
Definition onclose (reason : option string) : M unit :=
  if isApiKeyError reason
  then (assign (set_lastSessionParams None) ;;
        assign (set_reconnectionAttempts maxReconnectionAttempts) ;;
        sendToRenderer "update-status" (PStr "Session closed: Invalid API key"))
  else
    (params <- read lastSessionParams ;;
     attempts <- read reconnectionAttempts ;;
     if negb (isNull params) && (attempts <? maxReconnectionAttempts)
     then attemptReconnection_begin
     else sendToRenderer "update-status" (PStr "Session closed")).

(** [stopMacOSAudioCapture()] (lines 1339-1345) *)
Definition stopMacOSAudioCapture : M unit :=
  proc <- read systemAudioProc ;;
  match proc with
  | Some _ => assign (set_systemAudioProc None)
  | None => ret tt
  end.

(** [sendAudioToGemini(base64Data)] (lines 1057-1071) *)
Definition sendAudioToGemini (base64Data : string) : M unit :=
  session <- read currentSession ;;
  match session with
  | None => ret tt
  | Some h => sendRealtimeInput h (InAudio base64Data "audio/pcm;rate=24000")
  end.

(** [convertStereoToMono(stereoBuffer)] (lines 1045-1055) *)
Definition convertStereoToMono (stereoBuffer : list byte) : list byte :=
  let samples := List.length stereoBuffer / 4 in
  List.concat (map (fun i => writeInt16LE (readInt16LE stereoBuffer (i * 4)))
              (seq 0 samples)).

(** The [while (audioBuffer.length >= CHUNK_SIZE)] loop of the stdout
    ['data'] handler (lines 1302-1313): each chunk is sent as it is cut;
    [fuel] bounds the iterations. *)
Fixpoint chunkLoop (toBase64 : list byte -> string) (fuel : nat)
  (audioBuffer : list byte) : M (list byte) :=
  match fuel with
  | 0 => ret audioBuffer
  | S fuel' =>
    if CHUNK_SIZE <=? List.length audioBuffer
    then (sendAudioToGemini
            (toBase64 (convertStereoToMono (firstn CHUNK_SIZE audioBuffer))) ;;
          chunkLoop toBase64 fuel' (skipn CHUNK_SIZE audioBuffer))
    else ret audioBuffer
  end.

(** The stdout ['data'] handler (lines 1299-1320) on the closure's
    [audioBuffer]; it returns the new [audioBuffer]. *)
Definition onStdoutData (toBase64 : list byte -> string)
  (audioBuffer data : list byte) : M (list byte) :=
  audioBuffer <- chunkLoop toBase64 (List.length (app audioBuffer data))
                   (app audioBuffer data) ;;
  ret (if maxBufferSize <? List.length audioBuffer
       then skipn (List.length audioBuffer - maxBufferSize) audioBuffer
       else audioBuffer).

(** [initialize-gemini] handler once connect settled (lines 1351-1356). *)
Definition initializeGemini_connected (res : option nat) : M bool :=
  initializeGeminiSession_end ;;
  match res with
  | Some h => assign (set_currentSession (Some h)) ;; ret true
  | None => ret false
  end.

(** [send-audio-content] handler (lines 1360-1372) *)
Definition sendAudioContent (sendError : option string) (data mimeType : string)
  : M IpcResult :=
  session <- read currentSession ;;
  match session with
  | None => ret (IpcErr "No active Gemini session")
  | Some h =>
    sendRealtimeInput h (InAudio data mimeType) ;;
    ret (match sendError with None => IpcOk | Some e => IpcErr e end)
  end.

(** [send-image-content] handler (lines 1375-1401) *)
Definition sendImageContent (decode : string -> list byte)
  (sendError : option string) (data : string) : M IpcResult :=
  session <- read currentSession ;;
  match session with
  | None => ret (IpcErr "No active Gemini session")
  | Some h =>
    if negb (truthy data) then ret (IpcErr "Invalid image data")
    else if List.length (decode data) <? 1000
    then ret (IpcErr "Image buffer too small")
    else
      (sendRealtimeInput h (InMedia data "image/jpeg") ;;
       ret (match sendError with None => IpcOk | Some e => IpcErr e end))
  end.

(** [send-text-message] handler (lines 1404-1419) *)
Definition sendTextMessage (sendError : option string) (text : string)
  : M IpcResult :=
  session <- read currentSession ;;
  match session with
  | None => ret (IpcErr "No active Gemini session")
  | Some h =>
    if negb (truthy text) || (String.length (trim text) =? 0)
    then ret (IpcErr "Invalid text message")
    else
      (sendRealtimeInput h (InText (trim text)) ;;
       ret (match sendError with None => IpcOk | Some e => IpcErr e end))
  end.

(** [stop-macos-audio] handler (lines 1439-1447) *)
Definition stopMacOSAudio : M IpcResult :=
  stopMacOSAudioCapture ;; ret IpcOk.

(** [close-session] handler (lines 1450-1468); [closeError] is the message
    of the exception [currentSession.close()] throws, if any. *)
Definition closeSession (closeError : option string) : M IpcResult :=
  stopMacOSAudioCapture ;;
  assign (set_lastSessionParams None) ;;
  session <- read currentSession ;;
  match session with
  | None => ret IpcOk
  | Some _ =>
    match closeError with
    | None => assign (set_currentSession None) ;; ret IpcOk
    | Some e => ret (IpcErr e)
    end
  end.

(** [getCurrentSessionData()] (lines 911-914), returned by the
    [get-current-session] handler (lines 1471-1478). *)
Definition getCurrentSessionData : M (option Z * list ConversationTurn) :=
  sid <- read currentSessionId ;;
  history <- read conversationHistory ;;
  ret (sid, history).

(** [start-new-session] handler (lines 1480-1488) *)
Definition startNewSession (now : Z) : M (option Z) :=
  initializeNewSession now ;;
  read currentSessionId.

(** The atomic segments, as for the class. *)
Definition step (e : Event) : M unit :=
  match e with
  | EvInitialize p => initializeGeminiSession_begin false p ;; ret tt
  | EvToolsResolved r now => initializeGeminiSession_tools r now
  | EvInitConnected res => initializeGemini_connected res ;; ret tt
  | EvOpen => sendToRenderer "update-status" (PStr "Live session connected")
  | EvMessage now m => onmessage now m
  | EvError msg => onerror msg
  | EvClose reason => onclose reason
  | EvReconnDelayDone => attemptReconnection_afterDelay
  | EvReconnConnected res => attemptReconnection_connected res
  | EvCloseSession err => closeSession err ;; ret tt
  | EvStartNewSession now => startNewSession now ;; ret tt
  | EvAudioSpawned h => assign (set_systemAudioProc (Some h))
  | EvAudioStop => stopMacOSAudio ;; ret tt
  | EvAudioExit => assign (set_systemAudioProc None)
  end.

Fixpoint run (es : list Event) : M unit :=
  match es with
  | [] => ret tt
  | e :: es' => step e ;; run es'
  end.

(** The closure right after [createGeminiService()] (its last statement
    calls [initializeNewSession()], line 1508). *)
Definition create (now : Z) (open : bool) : Vars * World :=
  let '(_, x, w) :=
    initializeNewSession now (mkVars None None "" [] false None "" 0 None)
      (mkWorld open [] [] []) in
  (x, w).

End Factory.

(** The class object whose fields hold the closure's variables and world. *)
Definition svc_of (x : Factory.Vars) (w : Factory.World) : Svc :=
  {| currentSession := Factory.currentSession x;
     currentSessionId := Factory.currentSessionId x;
     currentTranscription := Factory.currentTranscription x;
     conversationHistory := Factory.conversationHistory x;
     isInitializingSession := Factory.isInitializingSession x;
     systemAudioProc := Factory.systemAudioProc x;
     messageBuffer := Factory.messageBuffer x;
     reconnectionAttempts := Factory.reconnectionAttempts x;
     lastSessionParams := Factory.lastSessionParams x;
     windowOpen := Factory.windowsOpen w;
     rendererLog := Factory.sentToRenderer w;
     transportLog := Factory.realtimeInputs w;
     reconnectionLog := Factory.attemptLines w |}.

(** The closure whose variables and world are those of a class object. *)
Definition factory_of (s : Svc) : Factory.Vars * Factory.World :=
  (Factory.mkVars (currentSession s) (currentSessionId s)
     (currentTranscription s) (conversationHistory s)
     (isInitializingSession s) (systemAudioProc s) (messageBuffer s)
     (reconnectionAttempts s) (lastSessionParams s),
   Factory.mkWorld (windowOpen s) (rendererLog s) (transportLog s)
     (reconnectionLog s)).

(** Running a factory computation, seen as the class object it leaves and
    the value it returns. *)
Definition observe {A : Type} (m : Factory.M A) (x : Factory.Vars)
  (w : Factory.World) : Svc * A :=
  let '(a, x', w') := m x w in (svc_of x' w', a).

(** The value the class's [initialize-gemini] handler returns once connect
    settled (lines 686-690). *)
Definition initializeGemini_result (res : option nat) : bool :=
  match res with Some _ => true | None => false end.

(** A factory computation simulates a class operation [f] when, from every
    closure, it leaves the object [f] computes and returns what [f] returns. *)
Definition sim {A : Type} (m : Factory.M A) (f : Svc -> Svc * A) : Prop :=
  forall x w, observe m x w = f (svc_of x w).

(** * Proofs *)

(** ** Audio capture bridge *)

Definition all_bytes : list byte := map byte_of (map N.of_nat (seq 0 256)).

Lemma byte_of_to_N (b : byte) : byte_of (Byte.to_N b) = b.
Proof.
  unfold byte_of. rewrite N.mod_small.
  - now rewrite Byte.of_to_N.
  - pose proof (Byte.to_N_bounded b). lia.
Qed.

Lemma in_all_bytes (b : byte) : In b all_bytes.
Proof.
  unfold all_bytes. rewrite map_map. apply in_map_iff.
  exists (Byte.to_nat b). split.
  - rewrite <- Byte.to_N_via_nat. apply byte_of_to_N.
  - apply in_seq. pose proof (Byte.to_nat_bounded b). lia.
Qed.

(** The 16-bit value [readInt16LE] reads from the bytes [b0], [b1]. *)
Definition int16 (b0 b1 : byte) : Z := readInt16LE [b0; b1] 0.

Lemma readInt16LE_nth (b : list byte) (o : nat) :
  readInt16LE b o = int16 (nth o b x00) (nth (S o) b x00).
Proof. reflexivity. Qed.

Definition int16_roundtrip_check (b0 b1 : byte) : bool :=
  match writeInt16LE (int16 b0 b1) with
  | [c0; c1] => Byte.eqb c0 b0 && Byte.eqb c1 b1
  | _ => false
  end.

Lemma int16_roundtrip_all :
  forallb (fun b0 => forallb (int16_roundtrip_check b0) all_bytes) all_bytes
  = true.
Proof. vm_compute. reflexivity. Qed.

(** Writing back a 16-bit sample read from two bytes gives those bytes. *)
Lemma writeInt16LE_int16 (b0 b1 : byte) : writeInt16LE (int16 b0 b1) = [b0; b1].
Proof.
  pose proof int16_roundtrip_all as H.
  rewrite forallb_forall in H. specialize (H b0 (in_all_bytes b0)).
  rewrite forallb_forall in H. specialize (H b1 (in_all_bytes b1)).
  unfold int16_roundtrip_check in H.
  destruct (writeInt16LE (int16 b0 b1)) as [|c0 [|c1 [|]]]; try discriminate.
  apply andb_prop in H as [H0 H1].
  apply Byte.byte_dec_bl in H0, H1. now subst.
Qed.

Lemma convertStereoToMono_leftSamples (b : list byte) :
  convertStereoToMono b = leftSamples b.
Proof.
  unfold convertStereoToMono, leftSamples. f_equal. apply map_ext. intro i.
  rewrite readInt16LE_nth, writeInt16LE_int16.
  replace (i * 4) with (4 * i) by lia. now replace (S (4 * i)) with (4 * i + 1) by lia.
Qed.

Lemma length_pairs {A} (f g : nat -> A) (l : list nat) :
  List.length (List.concat (map (fun j => [f j; g j]) l)) = 2 * List.length l.
Proof. induction l as [|x l IH]; simpl; [reflexivity | rewrite IH; lia]. Qed.

Lemma length_leftSamples (b : list byte) :
  List.length (leftSamples b) = 2 * (List.length b / 4).
Proof. unfold leftSamples. now rewrite length_pairs, length_seq. Qed.

Section Slices.
Variable size : nat.
Hypothesis size_pos : 0 < size.

Lemma slices_nil : slices size [] = [].
Proof. unfold slices. cbn [List.length]. now rewrite Nat.Div0.div_0_l. Qed.

Lemma slices_short (l : list byte) :
  List.length l < size -> slices size l = [].
Proof. intro H. unfold slices. now rewrite Nat.div_small. Qed.

Lemma slices_cons (l : list byte) :
  size <= List.length l ->
  slices size l = firstn size l :: slices size (skipn size l).
Proof.
  intro H. unfold slices. rewrite length_skipn.
  replace (List.length l / size) with (S ((List.length l - size) / size)).
  2:{ replace (List.length l) with ((List.length l - size) + 1 * size) at 2
        by lia.
      rewrite Nat.div_add by lia. lia. }
  cbn [seq map]. rewrite <- seq_shift, map_map. f_equal.
  apply map_ext. intro k. rewrite skipn_skipn. do 2 f_equal. lia.
Qed.

Lemma reframe_spec (convert : list byte -> list byte) (fuel : nat)
  (buf : list byte) :
  List.length buf <= fuel ->
  reframe size convert fuel buf =
  (map convert (slices size buf),
   skipn (size * (List.length buf / size)) buf).
Proof.
  revert buf. induction fuel as [|fuel IH]; intros buf Hb.
  - destruct buf; [|simpl in Hb; lia].
    cbn [List.length reframe]. rewrite slices_nil, Nat.Div0.div_0_l.
    now rewrite Nat.mul_0_r.
  - simpl reframe. destruct (Nat.leb_spec size (List.length buf)) as [Hle|Hlt].
    + rewrite IH by (rewrite length_skipn; lia).
      rewrite (slices_cons buf Hle). simpl map. f_equal.
      rewrite skipn_skipn, length_skipn. f_equal.
      replace (List.length buf) with ((List.length buf - size) + 1 * size)
        at 2 by lia.
      rewrite Nat.div_add by lia. lia.
    + rewrite slices_short by lia. rewrite Nat.div_small by lia.
      now rewrite Nat.mul_0_r.
Qed.

Lemma length_residual (l : list byte) :
  List.length (skipn (size * (List.length l / size)) l) < size.
Proof.
  rewrite length_skipn.
  pose proof (Nat.div_mod_eq (List.length l) size).
  pose proof (Nat.mod_upper_bound (List.length l) size). lia.
Qed.

Lemma slices_app_mult (q : nat) (p z : list byte) :
  List.length p = size * q ->
  slices size (app p z) = app (slices size p) (slices size z).
Proof.
  revert p. induction q as [|q IH]; intros p Hp.
  - destruct p; [|simpl in Hp; lia]. now rewrite slices_nil.
  - rewrite (slices_cons (app p z)) by (rewrite length_app; lia).
    rewrite (slices_cons p) by lia.
    rewrite firstn_app, skipn_app.
    replace (size - List.length p) with 0 by lia.
    rewrite firstn_O, skipn_O, app_nil_r. simpl. f_equal.
    apply IH. rewrite length_skipn. lia.
Qed.

Lemma skipn_residual_app (q : nat) (p z : list byte) :
  List.length p = size * q ->
  skipn (size * (List.length (app p z) / size)) (app p z) =
  skipn (size * (List.length z / size)) z.
Proof.
  intro Hp. rewrite length_app, Hp.
  replace (size * q + List.length z) with (q * size + List.length z) by lia.
  rewrite Nat.div_add_l by lia.
  rewrite Nat.mul_add_distr_l, Nat.add_comm, <- skipn_skipn.
  rewrite skipn_app, (skipn_all2 p) by lia.
  replace (size * q - List.length p) with 0 by lia. reflexivity.
Qed.

Lemma slices_residual (x : list byte) :
  slices size x =
  slices size (firstn (size * (List.length x / size)) x).
Proof.
  set (q := List.length x / size).
  rewrite <- (firstn_skipn (size * q) x) at 1.
  rewrite (slices_app_mult q).
  - rewrite (slices_short (skipn (size * q) x)); [apply app_nil_r|].
    apply length_residual.
  - rewrite length_firstn. pose proof (Nat.Div0.mul_div_le (List.length x) size).
    lia.
Qed.
End Slices.

Lemma CHUNK_SIZE_pos : 0 < CHUNK_SIZE.
Proof. apply Nat.ltb_lt. reflexivity. Qed.

Lemma CHUNK_SIZE_le_max : CHUNK_SIZE <= maxBufferSize.
Proof. apply Nat.leb_le. reflexivity. Qed.

(** One ['data'] event: the frames are the converted slices of the
    accumulated bytes and the residual is what follows them (the cap never
    applies, the loop leaves less than one frame). *)
Lemma onStdoutData_spec (audioBuffer data : list byte) :
  onStdoutData audioBuffer data =
  (map convertStereoToMono (slices CHUNK_SIZE (app audioBuffer data)),
   skipn (CHUNK_SIZE * (List.length (app audioBuffer data) / CHUNK_SIZE))
     (app audioBuffer data)).
Proof.
  unfold onStdoutData.
  rewrite reframe_spec by (apply CHUNK_SIZE_pos || lia).
  f_equal. unfold capResidual.
  pose proof (length_residual CHUNK_SIZE CHUNK_SIZE_pos (app audioBuffer data)).
  pose proof CHUNK_SIZE_le_max.
  destruct (Nat.ltb_spec maxBufferSize
              (List.length (skipn (CHUNK_SIZE * (List.length (app audioBuffer data)
                                                  / CHUNK_SIZE))
                              (app audioBuffer data)))); [lia | reflexivity].
Qed.

(** A run of ['data'] events from a buffer shorter than one frame. *)
Lemma captureStream_spec (ds : list (list byte)) (r : list byte) :
  List.length r < CHUNK_SIZE ->
  captureStream r ds =
  (map convertStereoToMono (slices CHUNK_SIZE (app r (List.concat ds))),
   skipn (CHUNK_SIZE * (List.length (app r (List.concat ds)) / CHUNK_SIZE))
     (app r (List.concat ds))).
Proof.
  pose proof CHUNK_SIZE_pos as Hpos.
  revert r. induction ds as [|d ds IH]; intros r Hr.
  - cbn [captureStream List.concat]. rewrite app_nil_r.
    rewrite slices_short by assumption.
    rewrite Nat.div_small by assumption. now rewrite Nat.mul_0_r.
  - cbn [captureStream List.concat]. rewrite onStdoutData_spec.
    set (x := app r d).
    set (q := List.length x / CHUNK_SIZE).
    set (r' := skipn (CHUNK_SIZE * q) x).
    rewrite IH by apply length_residual, Hpos.
    rewrite app_assoc. fold x.
    set (y := List.concat ds).
    assert (Hp : List.length (firstn (CHUNK_SIZE * q) x) = CHUNK_SIZE * q).
    { rewrite length_firstn.
      pose proof (Nat.Div0.mul_div_le (List.length x) CHUNK_SIZE). lia. }
    assert (Hx : x = app (firstn (CHUNK_SIZE * q) x) r')
      by (symmetry; apply firstn_skipn).
    f_equal.
    + rewrite (slices_residual CHUNK_SIZE Hpos x). fold q.
      rewrite Hx at 2. rewrite <- app_assoc.
      rewrite (slices_app_mult CHUNK_SIZE Hpos q _ _ Hp).
      now rewrite map_app.
    + rewrite Hx. rewrite <- app_assoc. symmetry.
      exact (skipn_residual_app CHUNK_SIZE Hpos q _ (app r' y) Hp).
Qed.

Lemma length_slices (size : nat) (l : list byte) :
  List.length (slices size l) = List.length l / size.
Proof. unfold slices. now rewrite length_map, length_seq. Qed.

Lemma slices_full (size : nat) (l : list byte) :
  0 < size ->
  Forall (fun sl => List.length sl = size) (slices size l).
Proof.
  intro Hpos. unfold slices. apply Forall_map, Forall_forall.
  intros k Hk. apply in_seq in Hk.
  rewrite length_firstn, length_skipn.
  pose proof (Nat.Div0.mul_div_le (List.length l) size).
  assert (k * size + size <= size * (List.length l / size)).
  { replace (k * size + size) with (S k * size) by lia.
    rewrite Nat.mul_comm. apply Nat.mul_le_mono_l. lia. }
  lia.
Qed.

Lemma slice_mono_length (sl : list byte) :
  List.length sl = CHUNK_SIZE ->
  List.length (leftSamples sl) = 4800 /\
  2 * List.length (leftSamples sl) = List.length sl.
Proof.
  intro H. rewrite length_leftSamples, H.
  split; apply Nat.eqb_eq; vm_compute; reflexivity.
Qed.

(** C4: a continuous stereo stream of [N] frame-equivalents ([N] is its
    length divided by [CHUNK_SIZE] = 9600 bytes), split in any way into
    ['data'] events, makes the bridge forward exactly [N] mono frames in
    capture order; frame [k] keeps only the left 16-bit sample of each
    stereo pair of the [k]-th 9600-byte slice, so it has half the bytes of
    that slice: 4800. *)
Theorem audio_capture_frames (ds : list (list byte)) :
  let stream := List.concat ds in
  let frames := fst (captureStream [] ds) in
  frames = map leftSamples (slices CHUNK_SIZE stream) /\
  List.length frames = List.length stream / CHUNK_SIZE /\
  Forall (fun sl => List.length sl = CHUNK_SIZE /\
                    2 * List.length (leftSamples sl) = List.length sl)
         (slices CHUNK_SIZE stream) /\
  Forall (fun f => List.length f = 4800) frames.
Proof.
  pose proof CHUNK_SIZE_pos as Hpos.
  cbv zeta. rewrite captureStream_spec by (simpl; exact Hpos).
  cbn [fst]. rewrite app_nil_l.
  assert (Hmap : map convertStereoToMono (slices CHUNK_SIZE (List.concat ds))
                 = map leftSamples (slices CHUNK_SIZE (List.concat ds)))
    by (apply map_ext; apply convertStereoToMono_leftSamples).
  rewrite Hmap. pose proof (slices_full CHUNK_SIZE (List.concat ds) Hpos) as Hf.
  split; [reflexivity|]. split; [now rewrite length_map, length_slices|].
  split.
  - eapply Forall_impl; [|exact Hf]. intros sl Hsl.
    split; [exact Hsl | apply slice_mono_length, Hsl].
  - apply Forall_map. eapply Forall_impl; [|exact Hf]. intros sl Hsl.
    apply slice_mono_length, Hsl.
Qed.

(** C5: after any ['data'] event the residual buffer holds the most recent
    of the received bytes and at most 1 second's worth of them
    ([maxBufferSize] = 48000; in fact less than one frame); the cap keeps
    exactly the newest [maxBufferSize] bytes of a longer buffer. *)
Theorem residual_buffer_bounded (audioBuffer data : list byte) :
  let rest := snd (onStdoutData audioBuffer data) in
  List.length rest <= maxBufferSize /\
  List.length rest < CHUNK_SIZE /\
  (exists dropped, app audioBuffer data = app dropped rest) /\
  (forall b, maxBufferSize < List.length b ->
     capResidual b = skipn (List.length b - maxBufferSize) b /\
     List.length (capResidual b) = maxBufferSize).
Proof.
  cbv zeta. rewrite onStdoutData_spec. cbn [snd].
  pose proof (length_residual CHUNK_SIZE CHUNK_SIZE_pos (app audioBuffer data)).
  pose proof CHUNK_SIZE_le_max.
  split; [lia|]. split; [assumption|]. split.
  - eexists. symmetry. apply firstn_skipn.
  - intros b Hb. unfold capResidual.
    destruct (Nat.ltb_spec maxBufferSize (List.length b)); [|lia].
    split; [reflexivity|]. rewrite length_skipn. lia.
Qed.

(** ** Session controller: general lemmas *)

Ltac unfold_svc :=
  unfold step, initializeGeminiSession_begin, initializeGeminiSession_tools,
    initializeGemini_connected, initializeGeminiSession_end, onmessage,
    onerror, onclose, attemptReconnection_afterDelay,
    attemptReconnection_connected, attemptReconnection_retry,
    attemptReconnection_begin, closeSession, stopMacOSAudioCapture,
    initializeNewSession, saveConversationTurn, sendReconnectionContext,
    status, sendToRenderer in *;
  unfold initializeGeminiSession_begin, initializeGeminiSession_end,
    attemptReconnection_retry, attemptReconnection_begin,
    initializeNewSession, saveConversationTurn, sendReconnectionContext,
    stopMacOSAudioCapture, status, sendToRenderer in *;
  unfold attemptReconnection_begin, initializeNewSession, status,
    sendToRenderer in *.

Ltac unfold_setters :=
  unfold set_currentSession, set_currentSessionId, set_currentTranscription,
    set_conversationHistory, set_isInitializingSession, set_systemAudioProc,
    set_messageBuffer, set_reconnectionAttempts, set_lastSessionParams,
    set_rendererLog, set_transportLog, set_reconnectionLog in *.

Ltac split_matches :=
  repeat match goal with
         | |- context [match ?x with _ => _ end] =>
           lazymatch x with
           | onmessage_accumulate _ _ => fail
           | context [match _ with _ => _ end] => fail
           | _ => destruct x eqn:?; cbv beta iota zeta
           end
         end.

Lemma sendToRenderer_eq (channel : string) (data : Payload) (s : Svc) :
  sendToRenderer channel data s =
  set_rendererLog
    (app (rendererLog s) (if windowOpen s then [(channel, data)] else [])) s.
Proof.
  unfold sendToRenderer. destruct (windowOpen s); [reflexivity|].
  rewrite app_nil_r. now destruct s.
Qed.

Lemma fold_addPart_shape (parts : list (option string)) (s : Svc) :
  fold_left addPart parts s =
  set_messageBuffer (messageBuffer (fold_left addPart parts s)) s.
Proof.
  revert s. induction parts as [|p parts IH]; intro s; simpl.
  - now destruct s.
  - rewrite IH. unfold addPart.
    destruct p as [t|]; [destruct (truthy t)|]; cbn; now destruct s.
Qed.

(** [onmessage_accumulate] only touches the two buffers. *)
Lemma accumulate_shape (m : Message) (s : Svc) :
  onmessage_accumulate m s =
  set_messageBuffer (messageBuffer (onmessage_accumulate m s))
    (set_currentTranscription (currentTranscription (onmessage_accumulate m s))
       s).
Proof.
  unfold onmessage_accumulate.
  destruct (inputTranscription m) as [t|]; [destruct (truthy t)|];
  destruct (modelTurnParts m) as [parts|];
  try rewrite fold_addPart_shape; cbn; now destruct s.
Qed.

Lemma step_currentSessionId (e : Event) (s : Svc) :
  currentSessionId s <> None -> currentSessionId (step e s) <> None.
Proof.
  intro H. destruct e; unfold_svc;
    try rewrite (accumulate_shape m s); split_matches; cbn in *;
    congruence.
Qed.

Lemma run_currentSessionId (tr : list Event) (s : Svc) :
  currentSessionId s <> None -> currentSessionId (run tr s) <> None.
Proof.
  revert s. induction tr as [|e tr IH]; intros s H; simpl; auto.
  apply IH, step_currentSessionId, H.
Qed.

Lemma initial_currentSessionId (now : Z) (w : bool) :
  currentSessionId (initial now w) <> None.
Proof. discriminate. Qed.

(** [onmessage] on a message with [generationComplete]: the fields it
    changes. *)
Lemma onmessage_flush (now : Z) (m : Message) (s : Svc) :
  generationComplete m = true -> currentSessionId s <> None ->
  let s1 := onmessage_accumulate m s in
  let t := currentTranscription s1 in
  let r := messageBuffer s1 in
  let saved := truthy t && truthy r in
  let turn := mkTurn now (trim t) (trim r) in
  let h' := app (conversationHistory s) (if saved then [turn] else []) in
  let s' := onmessage now m s in
  conversationHistory s' = h' /\
  messageBuffer s' = "" /\
  currentTranscription s' = (if saved then "" else t) /\
  rendererLog s' =
    app (rendererLog s)
       (if windowOpen s
        then app [("update-response", PStr r)]
               (app (if saved
                     then [("save-conversation-turn",
                            PTurnSaved (currentSessionId s) turn h')]
                     else [])
                  (if turnComplete m
                   then [("update-status", PStr "Listening...")] else []))
        else []).
Proof.
  intros Hgc Hsid. cbv zeta. unfold onmessage. rewrite Hgc.
  rewrite (accumulate_shape m s).
  remember (currentTranscription (onmessage_accumulate m s)) as t eqn:Ht.
  remember (messageBuffer (onmessage_accumulate m s)) as r eqn:Hr.
  clear Ht Hr.
  unfold saveConversationTurn, status. rewrite !sendToRenderer_eq.
  destruct (currentSessionId s) as [sid|] eqn:Esid; [|congruence].
  cbn -[trim]. rewrite Esid.
  destruct (truthy t), (truthy r), (windowOpen s) eqn:Ew, (turnComplete m);
    cbn -[trim]; rewrite ?Esid, ?Ew; cbn -[trim];
    rewrite ?app_nil_r, <- ?app_assoc; repeat split; reflexivity.
Qed.

Lemma reachable_currentSessionId (now0 : Z) (w : bool) (tr : list Event) :
  currentSessionId (run tr (initial now0 w)) <> None.
Proof. apply run_currentSessionId, initial_currentSessionId. Qed.

(** ** C1: flushing the buffers at [generationComplete] *)

(** C1 (as claimed): after a flush both buffers are empty, whatever the
    outcome.  Refuted: a transcription with no response yet is kept. *)
Lemma flush_keeps_transcription_counterexample :
  let s := run [EvMessage 2 (mkMessage (Some "hello") None false false)]
               (initial 1 true) in
  let s' := onmessage 3 (mkMessage None None true false) s in
  conversationHistory s' = conversationHistory s /\
  messageBuffer s' = "" /\
  currentTranscription s' = "hello" /\
  currentTranscription s' <> "".
Proof. cbv zeta. repeat split; [reflexivity..| discriminate]. Qed.

(** C1 (amended): in every reachable state, a message carrying
    [generationComplete] appends the Turn (trimmed fields) iff both
    accumulated buffers are non-empty; the response buffer is then empty;
    the transcription buffer is emptied when the Turn is appended and
    otherwise keeps its accumulated text. *)
Theorem generation_complete_flush (now0 : Z) (w : bool) (tr : list Event)
  (now : Z) (m : Message) :
  generationComplete m = true ->
  let s := run tr (initial now0 w) in
  let s1 := onmessage_accumulate m s in
  let t := currentTranscription s1 in
  let r := messageBuffer s1 in
  let s' := onmessage now m s in
  conversationHistory s' =
    app (conversationHistory s)
      (if truthy t && truthy r then [mkTurn now (trim t) (trim r)] else []) /\
  messageBuffer s' = "" /\
  currentTranscription s' = (if truthy t && truthy r then "" else t).
Proof.
  intros Hgc. cbv zeta.
  destruct (onmessage_flush now m (run tr (initial now0 w)) Hgc
              (reachable_currentSessionId now0 w tr))
    as (Hh & Hm & Ht & _).
  auto.
Qed.

(** ** C10: whitespace-only transcriptions *)

(** C10: when the accumulated transcription is whitespace only (but not
    empty) and the response is non-empty, the flush still appends a Turn,
    whose trimmed transcription is the empty string, and the turn-saved
    payload sent to the renderer carries it. *)
Theorem whitespace_transcription_turn (now0 : Z) (w : bool)
  (tr : list Event) (now : Z) (m : Message) :
  generationComplete m = true ->
  let s := run tr (initial now0 w) in
  let s1 := onmessage_accumulate m s in
  currentTranscription s1 <> "" ->
  trim (currentTranscription s1) = "" ->
  messageBuffer s1 <> "" ->
  let turn := mkTurn now "" (trim (messageBuffer s1)) in
  let s' := onmessage now m s in
  conversationHistory s' = app (conversationHistory s) [turn] /\
  (windowOpen s = true ->
   In ("save-conversation-turn",
       PTurnSaved (currentSessionId s) turn (conversationHistory s'))
      (rendererLog s')).
Proof.
  intros Hgc. cbv zeta. intros Ht Htrim Hr.
  destruct (onmessage_flush now m (run tr (initial now0 w)) Hgc
              (reachable_currentSessionId now0 w tr))
    as (Hh & _ & _ & Hlog).
  cbv zeta in Hh, Hlog.
  assert (Hsaved : truthy (currentTranscription
                     (onmessage_accumulate m (run tr (initial now0 w)))) &&
                   truthy (messageBuffer
                     (onmessage_accumulate m (run tr (initial now0 w))))
                   = true).
  { unfold truthy. apply andb_true_intro. split; apply negb_true_iff;
      apply String.eqb_neq; assumption. }
  rewrite Hsaved, Htrim in Hh, Hlog. split; [exact Hh|].
  intro Hw. rewrite Hlog, Hw, Hh. apply in_or_app. right.
  simpl. right. left. reflexivity.
Qed.

(** ** C2: authentication failures *)

Lemma step_params_none (e : Event) (s : Svc) :
  lastSessionParams s = None -> (forall p, e <> EvInitialize p) ->
  lastSessionParams (step e s) = None /\
  reconnectionLog (step e s) = reconnectionLog s.
Proof.
  intros H Hne. destruct e;
    [exfalso; eapply Hne; reflexivity|..];
    unfold_svc; try rewrite (accumulate_shape m s); split_matches;
    cbn in *; split; congruence.
Qed.

Lemma run_params_none (tr : list Event) (s : Svc) :
  lastSessionParams s = None ->
  Forall (fun e => forall p, e <> EvInitialize p) tr ->
  lastSessionParams (run tr s) = None /\
  reconnectionLog (run tr s) = reconnectionLog s.
Proof.
  revert s. induction tr as [|e tr IH]; intros s H Hall; simpl; [auto|].
  inversion Hall as [|? ? He Htr]; subst.
  destruct (step_params_none e s H He) as [H1 H2].
  destruct (IH (step e s) H1 Htr) as [H3 H4]. split; congruence.
Qed.

(** C2 (as claimed): the auth-failure phrases are matched case-insensitively.
    Refuted: an error whose message is "Unauthorized" matches the claimed
    test but not the code's case-sensitive one; on a connected session the
    close event with that reason keeps the stored params and starts a
    reconnection attempt, and the error event reports it verbatim. *)
Lemma auth_failure_case_counterexample :
  let p := mkParams "key" "" "interview" "en-US" in
  let s := run [EvInitialize p; EvToolsResolved false 1; EvInitConnected (Some 7)]
               (initial 0 true) in
  authFailure_ci (Some "Unauthorized") = true /\
  isApiKeyError (Some "Unauthorized") = false /\
  lastSessionParams (onclose (Some "Unauthorized") s) = Some p /\
  reconnectionLog (onclose (Some "Unauthorized") s) = [1] /\
  reconnectionAttempts (onclose (Some "Unauthorized") s) = 1 /\
  lastSessionParams (onerror (Some "Unauthorized") s) = Some p /\
  last (rendererLog (onerror (Some "Unauthorized") s)) ("", PStr "") =
    ("update-status", PStr "Error: Unauthorized").
Proof. cbv zeta. repeat split; reflexivity. Qed.

(** C2 (amended): when the error message or close reason contains,
    case-sensitively, "API key not valid", "invalid API key",
    "authentication failed" or "unauthorized", the callback clears the stored
    params, sets the attempt counter to its maximum 3 and emits the
    "Error: Invalid API key" (error) or "Session closed: Invalid API key"
    (close) status; afterwards no reconnection attempt is started and the
    params stay cleared along every run that makes no new
    initialize-gemini call. *)
Theorem auth_failure_stops_reconnection (text : option string) (s : Svc)
  (tr : list Event) :
  isApiKeyError text = true ->
  Forall (fun e => forall p, e <> EvInitialize p) tr ->
  (let s' := onerror text s in
   lastSessionParams s' = None /\
   reconnectionAttempts s' = maxReconnectionAttempts /\
   rendererLog s' =
     app (rendererLog s)
       (if windowOpen s
        then [("update-status", PStr "Error: Invalid API key")] else []) /\
   lastSessionParams (run tr s') = None /\
   reconnectionLog (run tr s') = reconnectionLog s) /\
  (let s' := onclose text s in
   lastSessionParams s' = None /\
   reconnectionAttempts s' = maxReconnectionAttempts /\
   rendererLog s' =
     app (rendererLog s)
       (if windowOpen s
        then [("update-status", PStr "Session closed: Invalid API key")]
        else []) /\
   lastSessionParams (run tr s') = None /\
   reconnectionLog (run tr s') = reconnectionLog s).
Proof.
  intros Hk Hall. cbv zeta. unfold onerror, onclose. rewrite Hk.
  unfold status. rewrite !sendToRenderer_eq.
  repeat split; try reflexivity;
    match goal with
    | |- context [run tr ?x] =>
      destruct (run_params_none tr x eq_refl Hall) as [H1 H2];
      first [exact H1 | rewrite H2; reflexivity]
    end.
Qed.

(** ** C3: the reconnection attempt counter *)

Ltac ltb_facts :=
  repeat match goal with
         | H : (_ <? _) = true |- _ => apply Nat.ltb_lt in H
         | H : (_ <? _) = false |- _ => apply Nat.ltb_ge in H
         | H : (_ <=? _) = true |- _ => apply Nat.leb_le in H
         | H : (_ <=? _) = false |- _ => apply Nat.leb_gt in H
         end.

Lemma step_attempts_le (e : Event) (s : Svc) :
  reconnectionAttempts s <= maxReconnectionAttempts ->
  reconnectionAttempts (step e s) <= maxReconnectionAttempts.
Proof.
  intro H. destruct e; unfold_svc; try rewrite (accumulate_shape m s);
    split_matches; cbn in *; ltb_facts; unfold maxReconnectionAttempts in *;
    lia.
Qed.

Lemma run_attempts_le (tr : list Event) (s : Svc) :
  reconnectionAttempts s <= maxReconnectionAttempts ->
  reconnectionAttempts (run tr s) <= maxReconnectionAttempts.
Proof.
  revert s. induction tr as [|e tr IH]; intros s H; simpl; auto.
  apply IH, step_attempts_le, H.
Qed.

Lemma step_attempts_reset (e : Event) (s : Svc) :
  reconnectionAttempts s <> 0 -> reconnectionAttempts (step e s) = 0 ->
  (exists h, e = EvReconnConnected (Some h)) \/
  (exists p, e = EvInitialize p /\ isInitializingSession s = false).
Proof.
  intros H0. destruct e; unfold_svc; try rewrite (accumulate_shape m s);
    split_matches; cbn in *; intro H; ltb_facts;
    unfold maxReconnectionAttempts in *; try lia; eauto.
Qed.

Lemma sendReconnectionContext_attempts (s : Svc) :
  reconnectionAttempts (sendReconnectionContext s) = reconnectionAttempts s.
Proof.
  unfold sendReconnectionContext.
  destruct (currentSession s); [|reflexivity].
  destruct (conversationHistory s); [reflexivity|].
  destruct (replayedTranscriptions _); reflexivity.
Qed.

(** C3 (as claimed): the counter returns to 0 only right after a successful
    reconnection.  Refuted: after three failed reconnection attempts the
    counter is 3, and a new initialize-gemini call (not a reconnection)
    sets it back to 0. *)
Lemma attempts_reset_by_initialize_counterexample :
  let p := mkParams "key" "" "interview" "en-US" in
  let s := run [EvInitialize p; EvToolsResolved false 1; EvInitConnected (Some 7);
                EvClose (Some "network error");
                EvReconnDelayDone; EvToolsResolved true 2; EvReconnConnected None;
                EvReconnDelayDone; EvToolsResolved true 3; EvReconnConnected None;
                EvReconnDelayDone; EvToolsResolved true 4; EvReconnConnected None]
               (initial 0 true) in
  reconnectionLog s = [1; 2; 3] /\
  reconnectionAttempts s = 3 /\
  reconnectionAttempts (step (EvInitialize p) s) = 0.
Proof. cbv zeta. repeat split; reflexivity. Qed.

(** C3 (amended): in every reachable state the attempt counter is at most
    3; a step takes a non-zero counter to 0 only when a reconnection's
    connect resolves with a session, or when an initialize-gemini call is
    accepted (no initialization in progress); both of these do set the
    counter to 0, and the accepted initialize-gemini call also stores its
    params as [lastSessionParams]. *)
Theorem reconnection_attempts_bounded (now0 : Z) (w : bool) (tr : list Event)
  (e : Event) :
  let s := run tr (initial now0 w) in
  reconnectionAttempts s <= maxReconnectionAttempts /\
  (reconnectionAttempts s <> 0 -> reconnectionAttempts (step e s) = 0 ->
   (exists h, e = EvReconnConnected (Some h)) \/
   (exists p, e = EvInitialize p /\ isInitializingSession s = false)) /\
  (forall h, reconnectionAttempts (step (EvReconnConnected (Some h)) s) = 0) /\
  (isInitializingSession s = false ->
   forall p, reconnectionAttempts (step (EvInitialize p) s) = 0 /\
             lastSessionParams (step (EvInitialize p) s) = Some p).
Proof.
  cbv zeta. set (s := run tr (initial now0 w)). split; [|split; [|split]].
  - apply run_attempts_le. unfold maxReconnectionAttempts. cbn. lia.
  - apply step_attempts_reset.
  - intro h. unfold step, attemptReconnection_connected.
    rewrite sendReconnectionContext_attempts. reflexivity.
  - intros Hi p. unfold step, initializeGeminiSession_begin. rewrite Hi.
    rewrite sendToRenderer_eq. split; reflexivity.
Qed.

(** ** C6: replaying the context after a reconnection *)

Lemma replayedTranscriptions_eq (h : list ConversationTurn) :
  replayedTranscriptions h =
  filter (fun t => negb (String.eqb (trim t) "")) (map transcription h).
Proof.
  unfold replayedTranscriptions. induction (map transcription h) as [|t l IH];
    [reflexivity|].
  cbn [filter]. rewrite IH.
  replace (truthy t && (0 <? String.length (trim t)))
    with (negb (String.eqb (trim t) "")); [reflexivity|].
  destruct (String.eqb_spec t "") as [->|Ht]; [reflexivity|].
  unfold truthy. apply String.eqb_neq in Ht. rewrite Ht.
  destruct (trim t); reflexivity.
Qed.

Lemma sendReconnectionContext_transport (s : Svc) (h : nat) :
  currentSession s = Some h ->
  transportLog (sendReconnectionContext s) =
  app (transportLog s)
    (match replayedTranscriptions (conversationHistory s) with
     | [] => []
     | ts => [(h, InText (contextPrefix ++ join nl ts))]
     end) /\
  currentSession (sendReconnectionContext s) = Some h.
Proof.
  intro H. unfold sendReconnectionContext. rewrite H.
  destruct (conversationHistory s) as [|c l];
    [split; [symmetry; apply app_nil_r | exact H]|].
  destruct (replayedTranscriptions (c :: l));
    [split; [symmetry; apply app_nil_r | exact H]|].
  split; [reflexivity | exact H].
Qed.

(** C6: when a reconnection's connect resolves with session [h], the
    counter is reset, [h] becomes the current session, and the transport
    log of the new session receives exactly one text input when some
    recorded transcription has non-empty trimmed value: the fixed prefix
    ("... answer the last one please:" and two newlines) followed by those
    transcriptions, oldest first, joined by newlines; none otherwise.  In
    particular with two such turns the text is the prefix, the first
    transcription, a newline and the second one. *)
Theorem reconnection_context_replay (h : nat) (s : Svc) :
  let s' := attemptReconnection_connected (Some h) s in
  let ts := filter (fun t => negb (String.eqb (trim t) ""))
              (map transcription (conversationHistory s)) in
  reconnectionAttempts s' = 0 /\
  currentSession s' = Some h /\
  transportLog s' =
    app (transportLog s)
      (match ts with
       | [] => []
       | _ => [(h, InText (contextPrefix ++ join nl ts))]
       end) /\
  (forall t1 t2, conversationHistory s = [t1; t2] ->
   trim (transcription t1) <> "" -> trim (transcription t2) <> "" ->
   transportLog s' =
     app (transportLog s)
       [(h, InText (contextPrefix ++ transcription t1 ++ nl ++
                    transcription t2))]).
Proof.
  cbv zeta. unfold attemptReconnection_connected.
  set (s1 := set_reconnectionAttempts 0
               (set_currentSession (Some h) (initializeGeminiSession_end s))).
  assert (E : transportLog s1 = transportLog s /\
              conversationHistory s1 = conversationHistory s)
    by (unfold s1, initializeGeminiSession_end; rewrite sendToRenderer_eq;
        split; reflexivity).
  destruct E as [Et Eh].
  destruct (sendReconnectionContext_transport s1 h eq_refl) as [Hlog Hcur].
  rewrite Et, Eh, replayedTranscriptions_eq in Hlog.
  split; [rewrite sendReconnectionContext_attempts; reflexivity|].
  split; [exact Hcur|].
  split; [rewrite Hlog; destruct (filter _ _); reflexivity|].
  intros t1 t2 Hh H1 H2. rewrite Hlog, Hh. cbn [map filter].
  apply String.eqb_neq in H1, H2. rewrite H1, H2. reflexivity.
Qed.

(** ** C7: validation in the IPC input handlers *)

(** C7 (as claimed): on a connected session every image whose decoded
    payload is below 1000 bytes gets "Image buffer too small", and every one
    of at least 1000 bytes succeeds.  Refuted: the empty string decodes to
    0 bytes yet gets "Invalid image data", and a 2000-byte image fails with
    the error of [sendRealtimeInput] when that call throws. *)
Lemma image_validation_counterexample :
  let p := mkParams "key" "" "interview" "en-US" in
  let s := run [EvInitialize p; EvToolsResolved false 1; EvInitConnected (Some 7)]
               (initial 0 true) in
  let img := string_of_list_ascii (repeat "A"%char 2667) in
  List.length (base64_decode "") < 1000 /\
  snd (sendImageContent base64_decode None "" s) = IpcErr "Invalid image data" /\
  List.length (base64_decode img) = 2000 /\
  snd (sendImageContent base64_decode (Some "WebSocket is closed") img s) =
    IpcErr "WebSocket is closed".
Proof.
  cbv zeta. split; [cbn; lia|]. split; [reflexivity|].
  split; vm_compute; reflexivity.
Qed.

(** C7 (amended): every handler returns a result (no exception escapes).
    With no current session the audio, image and text handlers return
    "No active Gemini session" and change nothing.  With a session, the
    image handler returns "Invalid image data" for the empty string,
    "Image buffer too small" for a non-empty payload decoding to fewer
    than 1000 bytes, and otherwise sends the image and returns the outcome
    of the send (success, or the error it threw); the text handler returns
    "Invalid text message" for every text whose trimmed value is empty. *)
Theorem ipc_input_validation (decode : string -> list byte)
  (sendError : option string) (s : Svc) :
  (currentSession s = None ->
   forall data mimeType text,
   sendAudioContent sendError data mimeType s =
     (s, IpcErr "No active Gemini session") /\
   sendImageContent decode sendError data s =
     (s, IpcErr "No active Gemini session") /\
   sendTextMessage sendError text s =
     (s, IpcErr "No active Gemini session")) /\
  (forall h, currentSession s = Some h ->
   sendImageContent decode sendError "" s = (s, IpcErr "Invalid image data") /\
   (forall data, data <> "" -> List.length (decode data) < 1000 ->
    sendImageContent decode sendError data s =
      (s, IpcErr "Image buffer too small")) /\
   (forall data, data <> "" -> 1000 <= List.length (decode data) ->
    sendImageContent decode sendError data s =
      (sendInput h (InMedia data "image/jpeg") s, sendResult sendError)) /\
   (forall text, trim text = "" ->
    sendTextMessage sendError text s = (s, IpcErr "Invalid text message"))).
Proof.
  unfold sendAudioContent, sendImageContent, sendTextMessage.
  split.
  - intros H data mimeType text. rewrite H. repeat split.
  - intros h H. rewrite H. split; [reflexivity|].
    assert (Ht : forall data, data <> "" -> truthy data = true)
      by (intros d Hd; unfold truthy; apply String.eqb_neq in Hd;
          rewrite Hd; reflexivity).
    split; [|split].
    + intros data Hd Hl. rewrite (Ht data Hd).
      apply Nat.ltb_lt in Hl. rewrite Hl. reflexivity.
    + intros data Hd Hl. rewrite (Ht data Hd).
      apply Nat.ltb_ge in Hl. rewrite Hl. reflexivity.
    + intros text Htr. rewrite Htr. rewrite orb_true_r. reflexivity.
Qed.

(** ** C8: closing the session *)

(** C8 (as claimed): close-session returns success on every state.
    Refuted: on a connected session whose [close()] throws, the handler
    returns the error, keeps the session, and a second call fails again. *)
Lemma close_session_error_counterexample :
  let p := mkParams "key" "" "interview" "en-US" in
  let s := run [EvInitialize p; EvToolsResolved false 1; EvInitConnected (Some 7)]
               (initial 0 true) in
  let '(s1, r1) := closeSession (Some "close failed") s in
  let '(s2, r2) := closeSession (Some "close failed") s1 in
  r1 = IpcErr "close failed" /\ currentSession s1 = Some 7 /\
  r2 = IpcErr "close failed".
Proof. cbv zeta. vm_compute. repeat split. Qed.

(** C8 (amended): when [close()] does not throw, close-session returns
    success, clears the stored params, stops the audio capture and drops
    the session; a second call then returns success and changes nothing.
    When [close()] throws, the params are cleared all the same, the
    session is kept, and the result is that error if a session was
    present, success otherwise. *)
Theorem close_session_twice (s : Svc) :
  let s1 := fst (closeSession None s) in
  snd (closeSession None s) = IpcOk /\
  currentSession s1 = None /\
  lastSessionParams s1 = None /\
  systemAudioProc s1 = None /\
  closeSession None s1 = (s1, IpcOk) /\
  (forall e,
   lastSessionParams (fst (closeSession (Some e) s)) = None /\
   currentSession (fst (closeSession (Some e) s)) = currentSession s /\
   snd (closeSession (Some e) s) =
     match currentSession s with Some _ => IpcErr e | None => IpcOk end).
Proof.
  destruct s as [cs sid tr hist init audio buf att params w rl tl rcl].
  cbv zeta. unfold closeSession, stopMacOSAudioCapture. cbn.
  destruct cs, audio; cbn; repeat split.
Qed.

(** ** C9: the factory variant against the class *)

Lemma sim_bind {A B : Type} (m : Factory.M A) (k : A -> Factory.M B)
  (f : Svc -> Svc * A) (g : A -> Svc -> Svc * B) :
  sim m f -> (forall a, sim (k a) (g a)) ->
  sim (Factory.bind m k) (fun s => let '(s', a) := f s in g a s').
Proof.
  intros Hm Hk x w. specialize (Hm x w). unfold observe, Factory.bind in *.
  destruct (m x w) as [[a x'] w']. rewrite <- Hm. apply Hk.
Qed.

Lemma sim_ext {A : Type} (m : Factory.M A) (f g : Svc -> Svc * A) :
  (forall s, f s = g s) -> sim m f -> sim m g.
Proof. intros E H x w. rewrite <- E. apply H. Qed.

Ltac head_is_match c :=
  lazymatch c with
  | match _ with _ => _ end => idtac
  | ?f _ => head_is_match f
  end.

(** Two case equations on convertible scrutinees give the same case. *)
Ltac merge_cases :=
  repeat match goal with
  | H1 : ?a = ?p, H2 : ?b = ?q |- _ =>
    assert_fails (constr_eq H1 H2); assert_fails (constr_eq a b);
    assert_fails (constr_eq p q); unify a b;
    let E := fresh in
    assert (E : p = q) by (transitivity a; [symmetry; exact H1 | exact H2]);
    clear H2; first [discriminate E | injection E; intros; subst]
  | H : ?p = ?q |- _ =>
    assert_fails (is_var p); assert_fails (is_var q);
    injection H; clear H; intros; subst
  end.

Ltac sim_intro :=
  unfold sim; intros;
  repeat match goal with
         | x : Factory.Vars |- _ => destruct x
         | w : Factory.World |- _ => destruct w as [[|] ? ? ?]
         end.

Ltac sim_reduce :=
  cbv beta iota zeta delta [observe svc_of Factory.bind Factory.ret Factory.read
    Factory.assign Factory.sendToRenderer Factory.sendRealtimeInput
    Factory.logAttempt Factory.isNull negb andb orb
    Factory.set_currentSession Factory.set_currentSessionId
    Factory.set_currentTranscription Factory.set_conversationHistory
    Factory.set_isInitializingSession Factory.set_systemAudioProc
    Factory.set_messageBuffer Factory.set_reconnectionAttempts
    Factory.set_lastSessionParams
    Factory.currentSession Factory.currentSessionId
    Factory.currentTranscription Factory.conversationHistory
    Factory.isInitializingSession Factory.systemAudioProc
    Factory.messageBuffer Factory.reconnectionAttempts
    Factory.lastSessionParams Factory.windowsOpen Factory.sentToRenderer
    Factory.realtimeInputs Factory.attemptLines
    set_currentSession set_currentSessionId set_currentTranscription
    set_conversationHistory set_isInitializingSession set_systemAudioProc
    set_messageBuffer set_reconnectionAttempts set_lastSessionParams
    set_rendererLog set_transportLog set_reconnectionLog
    sendToRenderer status sendInput sendResult
    currentSession currentSessionId currentTranscription conversationHistory
    isInitializingSession systemAudioProc messageBuffer reconnectionAttempts
    lastSessionParams windowOpen rendererLog transportLog reconnectionLog
    inputTranscription modelTurnParts generationComplete turnComplete];
  repeat (match goal with
          | |- context [match ?c with _ => _ end] =>
            tryif head_is_match c then fail else destruct c eqn:?
          end; cbv beta iota zeta);
  try reflexivity; try discriminate; merge_cases; try reflexivity;
  try (exfalso;
       repeat match goal with
              | H : (_ <=? _) = true |- _ => apply Nat.leb_le in H
              | H : (_ <=? _) = false |- _ => apply Nat.leb_gt in H
              | H : (_ <? _) = true |- _ => apply Nat.ltb_lt in H
              | H : (_ <? _) = false |- _ => apply Nat.ltb_ge in H
              end; lia).

Ltac sim_crush := sim_intro; sim_reduce.

Lemma sim_sendToRenderer c d :
  sim (Factory.sendToRenderer c d) (fun s => (sendToRenderer c d s, tt)).
Proof. sim_crush. Qed.

Lemma sim_initializeNewSession now :
  sim (Factory.initializeNewSession now) (fun s => (initializeNewSession now s, tt)).
Proof. cbv delta [Factory.initializeNewSession initializeNewSession]. sim_crush. Qed.

Lemma sim_saveConversationTurn now t a :
  sim (Factory.saveConversationTurn now t a)
    (fun s => (saveConversationTurn now t a s, tt)).
Proof.
  cbv delta [Factory.saveConversationTurn saveConversationTurn Factory.initializeNewSession initializeNewSession].
  sim_crush.
Qed.

Lemma sim_sendReconnectionContext :
  sim Factory.sendReconnectionContext (fun s => (sendReconnectionContext s, tt)).
Proof.
  cbv delta [Factory.sendReconnectionContext sendReconnectionContext replayedTranscriptions].
  sim_crush.
Qed.

Lemma sim_initializeGeminiSession_begin r p :
  sim (Factory.initializeGeminiSession_begin r p)
    (initializeGeminiSession_begin r p).
Proof.
  cbv delta [Factory.initializeGeminiSession_begin initializeGeminiSession_begin].
  sim_crush.
Qed.

Lemma sim_initializeGeminiSession_tools r now :
  sim (Factory.initializeGeminiSession_tools r now)
    (fun s => (initializeGeminiSession_tools r now s, tt)).
Proof.
  cbv delta [Factory.initializeGeminiSession_tools initializeGeminiSession_tools Factory.initializeNewSession initializeNewSession].
  sim_crush.
Qed.

Lemma sim_attemptReconnection_retry :
  sim Factory.attemptReconnection_retry
    (fun s => (attemptReconnection_retry s, tt)).
Proof.
  cbv delta [Factory.attemptReconnection_retry attemptReconnection_retry Factory.attemptReconnection_begin attemptReconnection_begin Factory.maxReconnectionAttempts maxReconnectionAttempts].
  sim_crush.
Qed.

Lemma sim_attemptReconnection_afterDelay :
  sim Factory.attemptReconnection_afterDelay
    (fun s => (attemptReconnection_afterDelay s, tt)).
Proof.
  cbv delta [Factory.attemptReconnection_afterDelay attemptReconnection_afterDelay Factory.initializeGeminiSession_begin initializeGeminiSession_begin Factory.attemptReconnection_retry attemptReconnection_retry Factory.attemptReconnection_begin attemptReconnection_begin Factory.maxReconnectionAttempts maxReconnectionAttempts].
  sim_crush.
Qed.

Lemma sim_attemptReconnection_connected res :
  sim (Factory.attemptReconnection_connected res)
    (fun s => (attemptReconnection_connected res s, tt)).
Proof.
  cbv delta [Factory.attemptReconnection_connected attemptReconnection_connected Factory.initializeGeminiSession_end initializeGeminiSession_end Factory.sendReconnectionContext sendReconnectionContext replayedTranscriptions Factory.attemptReconnection_retry attemptReconnection_retry Factory.attemptReconnection_begin attemptReconnection_begin Factory.maxReconnectionAttempts maxReconnectionAttempts].
  sim_crush.
Qed.

Lemma sim_initializeGemini_connected res :
  sim (Factory.initializeGemini_connected res)
    (fun s => (initializeGemini_connected res s, initializeGemini_result res)).
Proof.
  cbv delta [Factory.initializeGemini_connected initializeGemini_connected Factory.initializeGeminiSession_end initializeGeminiSession_end initializeGemini_result].
  sim_crush.
Qed.

Lemma sim_onerror msg :
  sim (Factory.onerror msg) (fun s => (onerror msg s, tt)).
Proof.
  cbv delta [Factory.onerror onerror Factory.isApiKeyError isApiKeyError Factory.maxReconnectionAttempts maxReconnectionAttempts].
  sim_crush.
Qed.

Lemma sim_onclose reason :
  sim (Factory.onclose reason) (fun s => (onclose reason s, tt)).
Proof.
  cbv delta [Factory.onclose onclose Factory.isApiKeyError isApiKeyError Factory.attemptReconnection_begin attemptReconnection_begin Factory.maxReconnectionAttempts maxReconnectionAttempts].
  sim_crush.
Qed.

Lemma sim_stopMacOSAudioCapture :
  sim Factory.stopMacOSAudioCapture (fun s => (stopMacOSAudioCapture s, tt)).
Proof. cbv delta [Factory.stopMacOSAudioCapture stopMacOSAudioCapture]. sim_crush. Qed.

Lemma sim_sendAudioToGemini d :
  sim (Factory.sendAudioToGemini d) (fun s => (sendAudioToGemini d s, tt)).
Proof. cbv delta [Factory.sendAudioToGemini sendAudioToGemini]. sim_crush. Qed.

Lemma sim_closeSession err :
  sim (Factory.closeSession err) (closeSession err).
Proof.
  cbv delta [Factory.closeSession closeSession Factory.stopMacOSAudioCapture stopMacOSAudioCapture].
  sim_crush.
Qed.

Lemma sim_stopMacOSAudio :
  sim Factory.stopMacOSAudio (fun s => (stopMacOSAudioCapture s, IpcOk)).
Proof.
  cbv delta [Factory.stopMacOSAudio Factory.stopMacOSAudioCapture stopMacOSAudioCapture].
  sim_crush.
Qed.

Lemma sim_sendAudioContent err d mt :
  sim (Factory.sendAudioContent err d mt) (sendAudioContent err d mt).
Proof. cbv delta [Factory.sendAudioContent sendAudioContent]. sim_crush. Qed.

Lemma sim_sendImageContent dec err d :
  sim (Factory.sendImageContent dec err d) (sendImageContent dec err d).
Proof. cbv delta [Factory.sendImageContent sendImageContent]. sim_crush. Qed.

Lemma sim_sendTextMessage err t :
  sim (Factory.sendTextMessage err t) (sendTextMessage err t).
Proof. cbv delta [Factory.sendTextMessage sendTextMessage]. sim_crush. Qed.

Lemma sim_getCurrentSessionData :
  sim Factory.getCurrentSessionData (fun s => (s, getCurrentSessionData s)).
Proof. cbv delta [Factory.getCurrentSessionData getCurrentSessionData]. sim_crush. Qed.

Lemma sim_startNewSession now :
  sim (Factory.startNewSession now) (startNewSession now).
Proof.
  cbv delta [Factory.startNewSession startNewSession Factory.initializeNewSession initializeNewSession].
  sim_crush.
Qed.

Lemma sim_addPart part :
  sim (Factory.addPart part) (fun s => (addPart s part, tt)).
Proof. cbv delta [Factory.addPart addPart]. sim_crush. Qed.

Lemma sim_forEach_addPart parts :
  sim (Factory.forEach parts Factory.addPart)
    (fun s => (fold_left addPart parts s, tt)).
Proof.
  induction parts as [|part parts IH]; [sim_crush|].
  cbn [Factory.forEach fold_left].
  eapply sim_ext; [|apply (sim_bind _ _ _ _ (sim_addPart part) (fun _ => IH))].
  reflexivity.
Qed.

Lemma sim_onmessage_accumulate m :
  sim (Factory.onmessage_accumulate m)
    (fun s => (onmessage_accumulate m s, tt)).
Proof.
  cbv delta [Factory.onmessage_accumulate].
  eapply sim_ext; [|apply (sim_bind _ _
    (fun s =>
       (match inputTranscription m with
        | Some t => if truthy t
                    then set_currentTranscription (currentTranscription s ++ t) s
                    else s
        | None => s end, tt))
    (fun _ s =>
       (match modelTurnParts m with
        | Some parts => fold_left addPart parts s
        | None => s end, tt)))].
  - intro s. reflexivity.
  - sim_crush.
  - intros _. destruct (modelTurnParts m) as [parts|].
    + apply sim_forEach_addPart.
    + sim_crush.
Qed.

Lemma sim_onmessage now m :
  sim (Factory.onmessage now m) (fun s => (onmessage now m s, tt)).
Proof.
  (* The accumulation first, then the rest on a message without payload;
     the conditions are split before reducing both sides. *)
  cbv delta [Factory.onmessage].
  set (m0 := mkMessage None None (generationComplete m) (turnComplete m)).
  eapply sim_ext; [|apply (sim_bind _ _ _ (fun _ s => (onmessage now m0 s, tt))
                          (sim_onmessage_accumulate m))].
  - intro s. reflexivity.
  - intros _. subst m0. unfold sim; intros x w.
    destruct x as [a1 a2 a3 a4 a5 a6 a7 a8 a9], w as [[|] b2 b3 b4].
    all: destruct (generationComplete m), (turnComplete m), a2, a3 as [|c3 r3], a7 as [|c7 r7].
    all: cbv delta [onmessage onmessage_accumulate Factory.saveConversationTurn saveConversationTurn Factory.initializeNewSession initializeNewSession truthy String.eqb].
    all: sim_reduce.
Qed.

Lemma sim_ret {A : Type} (a : A) : sim (Factory.ret a) (fun s => (s, a)).
Proof. sim_crush. Qed.

Lemma sim_chunkLoop tb fuel buf :
  sim (Factory.chunkLoop tb fuel buf)
    (fun s => let '(frames, rest) := reframe CHUNK_SIZE convertStereoToMono fuel buf in
              (fold_left (fun s f => sendAudioToGemini (tb f) s) frames s, rest)).
Proof.
  revert buf; induction fuel as [|fuel IH]; intro buf.
  - apply sim_ret.
  - cbn [Factory.chunkLoop reframe].
    destruct (CHUNK_SIZE <=? List.length buf).
    + eapply sim_ext;
        [|apply (sim_bind _ _ _ _ (sim_sendAudioToGemini _) (fun _ => IH _))].
      intro s. cbv zeta.
      destruct (reframe CHUNK_SIZE convertStereoToMono fuel (skipn CHUNK_SIZE buf)).
      reflexivity.
    + apply sim_ret.
Qed.

Lemma sim_onStdoutData tb buf data :
  sim (Factory.onStdoutData tb buf data)
    (fun s => let '(rest, s') := onStdoutData_send tb buf data s in (s', rest)).
Proof.
  unfold Factory.onStdoutData.
  eapply sim_ext; [|apply (sim_bind _ _ _ _ (sim_chunkLoop _ _ _) (fun _ => sim_ret _))].
  intro s. unfold onStdoutData_send, onStdoutData, capResidual. cbv zeta.
  destruct (reframe _ _ _ _). reflexivity.
Qed.

Lemma sim_step e : sim (Factory.step e) (fun s => (step e s, tt)).
Proof.
  destruct e; cbn [Factory.step step].
  - eapply sim_ext; [|apply (sim_bind _ _ _ _ (sim_initializeGeminiSession_begin _ _)
                                         (fun _ => sim_ret _))].
    intro s. cbv beta. destruct (initializeGeminiSession_begin false p s). reflexivity.
  - apply sim_initializeGeminiSession_tools.
  - eapply sim_ext; [|apply (sim_bind _ _ _ _ (sim_initializeGemini_connected _)
                                         (fun _ => sim_ret _))].
    reflexivity.
  - unfold status. apply sim_sendToRenderer.
  - apply sim_onmessage.
  - apply sim_onerror.
  - apply sim_onclose.
  - apply sim_attemptReconnection_afterDelay.
  - apply sim_attemptReconnection_connected.
  - eapply sim_ext; [|apply (sim_bind _ _ _ _ (sim_closeSession _)
                                         (fun _ => sim_ret _))].
    intro s. cbv beta. destruct (closeSession closeError s). reflexivity.
  - eapply sim_ext; [|apply (sim_bind _ _ _ _ (sim_startNewSession _)
                                         (fun _ => sim_ret _))].
    reflexivity.
  - sim_crush.
  - eapply sim_ext; [|apply (sim_bind _ _ _ _ sim_stopMacOSAudio
                                         (fun _ => sim_ret _))].
    reflexivity.
  - sim_crush.
Qed.

Lemma sim_run tr : sim (Factory.run tr) (fun s => (run tr s, tt)).
Proof.
  induction tr as [|e tr IH]; cbn [Factory.run run].
  - apply sim_ret.
  - eapply sim_ext; [|apply (sim_bind _ _ _ _ (sim_step e) (fun _ => IH))].
    reflexivity.
Qed.

Lemma create_initial now w :
  svc_of (fst (Factory.create now w)) (snd (Factory.create now w)) = initial now w.
Proof. reflexivity. Qed.

Lemma svc_of_factory_of s :
  svc_of (fst (factory_of s)) (snd (factory_of s)) = s.
Proof. destruct s; reflexivity. Qed.

(** C9: the factory variant [createGeminiService] and the class
    [GeminiService] are observably equivalent.  Closure states and class
    objects correspond one to one ([svc_of] and [factory_of]); the closure
    right after [createGeminiService()] is the object right after the
    constructor; from corresponding states, every trace of segments
    ([Event]s: IPC calls, transport callbacks, timers, audio process
    events) leaves corresponding states, with the same session fields,
    buffers, reconnection counter, renderer emissions, transport inputs
    and reconnection log; and each IPC handler and the stdout ['data']
    handler returns the same result and leaves the same state in both. *)
Theorem factory_class_equivalence :
  (forall now open,
   svc_of (fst (Factory.create now open)) (snd (Factory.create now open)) =
   initial now open) /\
  (forall s, svc_of (fst (factory_of s)) (snd (factory_of s)) = s) /\
  (forall tr x w, observe (Factory.run tr) x w = (run tr (svc_of x w), tt)) /\
  (forall p x w,
   observe (Factory.initializeGeminiSession_begin false p) x w =
   initializeGeminiSession_begin false p (svc_of x w)) /\
  (forall res x w,
   observe (Factory.initializeGemini_connected res) x w =
   (initializeGemini_connected res (svc_of x w), initializeGemini_result res)) /\
  (forall err d mt x w,
   observe (Factory.sendAudioContent err d mt) x w =
   sendAudioContent err d mt (svc_of x w)) /\
  (forall dec err d x w,
   observe (Factory.sendImageContent dec err d) x w =
   sendImageContent dec err d (svc_of x w)) /\
  (forall err t x w,
   observe (Factory.sendTextMessage err t) x w =
   sendTextMessage err t (svc_of x w)) /\
  (forall x w,
   observe Factory.stopMacOSAudio x w =
   (stopMacOSAudioCapture (svc_of x w), IpcOk)) /\
  (forall err x w,
   observe (Factory.closeSession err) x w = closeSession err (svc_of x w)) /\
  (forall x w,
   observe Factory.getCurrentSessionData x w =
   (svc_of x w, getCurrentSessionData (svc_of x w))) /\
  (forall now x w,
   observe (Factory.startNewSession now) x w = startNewSession now (svc_of x w)) /\
  (forall toBase64 buf data x w,
   observe (Factory.onStdoutData toBase64 buf data) x w =
   let '(rest, s') := onStdoutData_send toBase64 buf data (svc_of x w) in
   (s', rest)).
Proof.
  split; [exact create_initial|].
  split; [exact svc_of_factory_of|].
  split; [exact sim_run|].
  split; [intro p; exact (sim_initializeGeminiSession_begin false p)|].
  split; [exact sim_initializeGemini_connected|].
  split; [exact sim_sendAudioContent|].
  split; [exact sim_sendImageContent|].
  split; [exact sim_sendTextMessage|].
  split; [exact sim_stopMacOSAudio|].
  split; [exact sim_closeSession|].
  split; [exact sim_getCurrentSessionData|].
  split; [exact sim_startNewSession|].
  exact sim_onStdoutData.
Qed.

(** ** Instances of the theorems on concrete inputs *)

Lemma residual_buffer_bounded_witness :
  let b := repeat x00 48001 in
  maxBufferSize < List.length b /\ List.length (capResidual b) = maxBufferSize.
Proof.
  cbv zeta.
  assert (Hb : maxBufferSize < List.length (repeat x00 48001))
    by (apply Nat.ltb_lt; vm_compute; reflexivity).
  split; [exact Hb|].
  exact (proj2 (proj2 (proj2 (proj2 (residual_buffer_bounded [] [])))
                  (repeat x00 48001) Hb)).
Defined.

Lemma generation_complete_flush_witness :
  let m := mkMessage (Some "hi") (Some [Some "hello"]) true false in
  generationComplete m = true /\
  conversationHistory (onmessage 5 m (run [] (initial 1 true))) =
    [mkTurn 5 "hi" "hello"] /\
  currentTranscription (onmessage 5 m (run [] (initial 1 true))) = "".
Proof.
  cbv zeta. split; [reflexivity|].
  destruct (generation_complete_flush 1 true [] 5
              (mkMessage (Some "hi") (Some [Some "hello"]) true false)
              eq_refl) as (H1 & _ & H3).
  rewrite H1, H3. split; reflexivity.
Defined.

Lemma whitespace_transcription_turn_witness :
  let m := mkMessage (Some " ") (Some [Some "answer"]) true false in
  let s1 := onmessage_accumulate m (run [] (initial 1 true)) in
  generationComplete m = true /\
  currentTranscription s1 <> "" /\
  trim (currentTranscription s1) = "" /\
  messageBuffer s1 <> "" /\
  conversationHistory (onmessage 5 m (run [] (initial 1 true))) =
    [mkTurn 5 "" "answer"].
Proof.
  cbv zeta.
  assert (H1 : currentTranscription (onmessage_accumulate
                 (mkMessage (Some " ") (Some [Some "answer"]) true false)
                 (run [] (initial 1 true))) <> "")
    by (intro E; vm_compute in E; discriminate E).
  assert (H2 : trim (currentTranscription (onmessage_accumulate
                 (mkMessage (Some " ") (Some [Some "answer"]) true false)
                 (run [] (initial 1 true)))) = "")
    by (vm_compute; reflexivity).
  assert (H3 : messageBuffer (onmessage_accumulate
                 (mkMessage (Some " ") (Some [Some "answer"]) true false)
                 (run [] (initial 1 true))) <> "")
    by (intro E; vm_compute in E; discriminate E).
  split; [reflexivity|]. split; [exact H1|]. split; [exact H2|].
  split; [exact H3|].
  destruct (whitespace_transcription_turn 1 true [] 5
              (mkMessage (Some " ") (Some [Some "answer"]) true false)
              eq_refl H1 H2 H3) as [Hh _].
  rewrite Hh. vm_compute. reflexivity.
Defined.

Lemma auth_failure_stops_reconnection_witness :
  let p := mkParams "key" "" "interview" "en-US" in
  let s := run [EvInitialize p; EvToolsResolved false 1; EvInitConnected (Some 7)]
               (initial 0 true) in
  let text := Some "API key not valid. Please pass a valid API key." in
  let tr := [EvClose (Some "network error"); EvReconnDelayDone] in
  isApiKeyError text = true /\
  lastSessionParams (run tr (onclose text s)) = None /\
  reconnectionLog (run tr (onclose text s)) = [].
Proof.
  cbv zeta.
  assert (HF : Forall (fun e => forall p, e <> EvInitialize p)
                 [EvClose (Some "network error"); EvReconnDelayDone])
    by (repeat constructor; intros q E; discriminate E).
  split; [reflexivity|].
  destruct (auth_failure_stops_reconnection
              (Some "API key not valid. Please pass a valid API key.")
              (run [EvInitialize (mkParams "key" "" "interview" "en-US");
                    EvToolsResolved false 1; EvInitConnected (Some 7)]
                   (initial 0 true))
              [EvClose (Some "network error"); EvReconnDelayDone]
              eq_refl HF) as [_ (_ & _ & _ & H4 & H5)].
  rewrite H4, H5. split; reflexivity.
Defined.

Lemma reconnection_attempts_bounded_witness :
  let p := mkParams "key" "" "interview" "en-US" in
  let tr := [EvInitialize p; EvToolsResolved false 1; EvInitConnected (Some 7);
             EvClose (Some "network error");
             EvReconnDelayDone; EvToolsResolved true 2; EvReconnConnected None] in
  let s := run tr (initial 0 true) in
  reconnectionAttempts s <= maxReconnectionAttempts /\
  isInitializingSession s = false /\
  reconnectionAttempts (step (EvInitialize p) s) = 0 /\
  lastSessionParams (step (EvInitialize p) s) = Some p /\
  reconnectionAttempts (step (EvReconnConnected (Some 8)) s) = 0.
Proof.
  cbv zeta.
  destruct (reconnection_attempts_bounded 0 true
              [EvInitialize (mkParams "key" "" "interview" "en-US");
               EvToolsResolved false 1; EvInitConnected (Some 7);
               EvClose (Some "network error");
               EvReconnDelayDone; EvToolsResolved true 2;
               EvReconnConnected None] EvOpen) as (H1 & _ & H3 & H4).
  assert (Hi : isInitializingSession
                 (run [EvInitialize (mkParams "key" "" "interview" "en-US");
                       EvToolsResolved false 1; EvInitConnected (Some 7);
                       EvClose (Some "network error");
                       EvReconnDelayDone; EvToolsResolved true 2;
                       EvReconnConnected None] (initial 0 true)) = false)
    by reflexivity.
  split; [exact H1|]. split; [exact Hi|].
  split; [exact (proj1 (H4 Hi _))|].
  split; [exact (proj2 (H4 Hi _)) | exact (H3 8)].
Defined.

Lemma reconnection_context_replay_witness :
  let s := set_conversationHistory [mkTurn 1 "q1" "a1"; mkTurn 2 "q2" "a2"]
             (initial 0 true) in
  trim "q1" <> "" /\ trim "q2" <> "" /\
  transportLog (attemptReconnection_connected (Some 9) s) =
    [(9, InText (contextPrefix ++ "q1" ++ nl ++ "q2"))].
Proof.
  cbv zeta.
  assert (H1 : trim "q1" <> "") by (intro E; vm_compute in E; discriminate E).
  assert (H2 : trim "q2" <> "") by (intro E; vm_compute in E; discriminate E).
  split; [exact H1|]. split; [exact H2|].
  destruct (reconnection_context_replay 9
              (set_conversationHistory [mkTurn 1 "q1" "a1"; mkTurn 2 "q2" "a2"]
                 (initial 0 true))) as (_ & _ & _ & H).
  rewrite (H (mkTurn 1 "q1" "a1") (mkTurn 2 "q2" "a2") eq_refl H1 H2).
  reflexivity.
Defined.

Lemma ipc_input_validation_witness :
  let p := mkParams "key" "" "interview" "en-US" in
  let s := run [EvInitialize p; EvToolsResolved false 1; EvInitConnected (Some 7)]
               (initial 0 true) in
  let img2000 := string_of_list_ascii (repeat "A"%char 2667) in
  let img500 := string_of_list_ascii (repeat "A"%char 667) in
  List.length (base64_decode img2000) = 2000 /\
  snd (sendImageContent base64_decode None img2000 s) = IpcOk /\
  List.length (base64_decode img500) = 500 /\
  snd (sendImageContent base64_decode None img500 s) =
    IpcErr "Image buffer too small" /\
  snd (sendTextMessage None "  " s) = IpcErr "Invalid text message".
Proof.
  cbv zeta.
  destruct (ipc_input_validation base64_decode None
              (run [EvInitialize (mkParams "key" "" "interview" "en-US");
                    EvToolsResolved false 1; EvInitConnected (Some 7)]
                   (initial 0 true))) as [_ H].
  destruct (H 7 eq_refl) as (_ & Hsmall & Hbig & Htext).
  assert (L1 : List.length (base64_decode
                 (string_of_list_ascii (repeat "A"%char 2667))) = 2000)
    by (vm_compute; reflexivity).
  assert (L2 : List.length (base64_decode
                 (string_of_list_ascii (repeat "A"%char 667))) = 500)
    by (vm_compute; reflexivity).
  split; [exact L1|]. split.
  - rewrite Hbig; [reflexivity | intro E; vm_compute in E; discriminate E |].
    rewrite L1. apply Nat.ltb_ge. vm_compute. reflexivity.
  - split; [exact L2|]. split.
    + rewrite Hsmall; [reflexivity | intro E; vm_compute in E; discriminate E |].
      rewrite L2. apply Nat.ltb_lt. vm_compute. reflexivity.
    + rewrite Htext; [reflexivity|]. vm_compute. reflexivity.
Defined.

(** ** Further properties of the code *)

(** *** Conversation history *)

Lemma drop_ws_head (l : list ascii) : ws_free_head (drop_ws l).
Proof.
  induction l as [|c l IH]; simpl; [exact I|].
  destruct (is_js_ws c) eqn:E; [exact IH | exact E].
Qed.

Lemma drop_ws_id (l : list ascii) : ws_free_head l -> drop_ws l = l.
Proof. destruct l as [|c l]; simpl; [reflexivity|]. intros ->. reflexivity. Qed.

Lemma drop_ws_skipn (l : list ascii) : exists j, drop_ws l = skipn j l.
Proof.
  induction l as [|c l IH]; simpl; [exists 0; reflexivity|].
  destruct (is_js_ws c).
  - destruct IH as [j Hj]. exists (S j). exact Hj.
  - exists 0. reflexivity.
Qed.

Lemma trim_right_head (m : list ascii) :
  ws_free_head m -> ws_free_head (rev (drop_ws (rev m))).
Proof.
  intro H. destruct (drop_ws_skipn (rev m)) as [j ->].
  rewrite skipn_rev, rev_involutive.
  destruct (List.length m - j) as [|k]; [exact I|].
  destruct m; [exact I|]. exact H.
Qed.

Lemma trim_idem (s : string) : trim (trim s) = trim s.
Proof.
  unfold trim. rewrite list_ascii_of_string_of_list_ascii.
  set (x := drop_ws (list_ascii_of_string s)).
  set (y := rev (drop_ws (rev x))).
  assert (Hy : ws_free_head y) by (apply trim_right_head, drop_ws_head).
  rewrite (drop_ws_id y Hy).
  unfold y at 1. rewrite rev_involutive.
  rewrite drop_ws_id by apply drop_ws_head.
  reflexivity.
Qed.

Lemma onmessage_sid (now : Z) (m : Message) (s : Svc) :
  currentSessionId s <> None ->
  currentSessionId (onmessage now m s) = currentSessionId s.
Proof.
  intro H. unfold onmessage, saveConversationTurn, status.
  rewrite (accumulate_shape m s), ?sendToRenderer_eq.
  destruct (currentSessionId s) as [sid|] eqn:E; [|congruence].
  destruct (generationComplete m), (turnComplete m); cbn -[trim];
    rewrite ?E; try reflexivity;
    destruct (_ && _); cbn -[trim]; rewrite ?E, ?sendToRenderer_eq;
    reflexivity.
Qed.

Lemma onmessage_nogc (now : Z) (m : Message) (s : Svc) :
  generationComplete m = false ->
  conversationHistory (onmessage now m s) = conversationHistory s /\
  currentSessionId (onmessage now m s) = currentSessionId s /\
  filter is_save (rendererLog (onmessage now m s)) = filter is_save (rendererLog s).
Proof.
  intro H. unfold onmessage, status. rewrite H, (accumulate_shape m s).
  destruct (turnComplete m); rewrite ?sendToRenderer_eq; cbn;
    repeat split; rewrite ?filter_app; cbn;
    destruct (windowOpen s); cbn; rewrite ?app_nil_r; reflexivity.
Qed.

Ltac frame_tac :=
  right; left; cbn;
  repeat split; try reflexivity;
  rewrite ?filter_app; cbn; rewrite ?app_nil_r; reflexivity.

Lemma step_history_saves (e : Event) (s : Svc) :
  currentSessionId s <> None ->
  (conversationHistory (step e s) = [] /\
   exists now, e = EvToolsResolved false now \/ e = EvStartNewSession now) \/
  (conversationHistory (step e s) = conversationHistory s /\
   currentSessionId (step e s) = currentSessionId s /\
   filter is_save (rendererLog (step e s)) = filter is_save (rendererLog s)) \/
  (exists now t r,
   conversationHistory (step e s) =
     app (conversationHistory s) [mkTurn now (trim t) (trim r)] /\
   currentSessionId (step e s) = currentSessionId s /\
   filter is_save (rendererLog (step e s)) =
     app (filter is_save (rendererLog s))
       (if windowOpen s
        then [("save-conversation-turn",
               PTurnSaved (currentSessionId s) (mkTurn now (trim t) (trim r))
                 (conversationHistory (step e s)))]
        else [])).
Proof.
  intro Hsid. destruct e.
  5: { destruct (generationComplete m) eqn:Hgc.
       - destruct (onmessage_flush now m s Hgc Hsid) as (Hh & _ & _ & Hl).
         cbv zeta in Hh, Hl. cbn [step]. rewrite (onmessage_sid now m s Hsid).
         rewrite Hh, Hl.
         set (t := currentTranscription (onmessage_accumulate m s)) in *.
         set (r := messageBuffer (onmessage_accumulate m s)) in *.
         destruct (truthy t && truthy r).
         + right; right. exists now, t, r.
           split; [reflexivity|]. split; [reflexivity|].
           destruct (windowOpen s), (turnComplete m); cbn;
             rewrite ?filter_app; cbn; rewrite ?app_nil_r; reflexivity.
         + right; left. rewrite app_nil_r. split; [reflexivity|].
           split; [reflexivity|].
           destruct (windowOpen s), (turnComplete m); cbn;
             rewrite ?filter_app; cbn; rewrite ?app_nil_r; reflexivity.
       - right; left. exact (onmessage_nogc now m s Hgc). }
  all: unfold_svc; split_matches;
    first [frame_tac | left; split; [reflexivity | eauto]].
Qed.

(** The turns of the conversation history are trimmed: in every reachable
    state, the transcription and the AI response of each turn have no
    leading or trailing JavaScript white space. *)
Theorem history_trimmed (now0 : Z) (w : bool) (tr : list Event) :
  Forall (fun t => trim (transcription t) = transcription t /\
                   trim (ai_response t) = ai_response t)
    (conversationHistory (run tr (initial now0 w))).
Proof.
  assert (G : forall s, currentSessionId s <> None ->
    Forall (fun t => trim (transcription t) = transcription t /\
                   trim (ai_response t) = ai_response t) (conversationHistory s) ->
    Forall (fun t => trim (transcription t) = transcription t /\
                   trim (ai_response t) = ai_response t) (conversationHistory (run tr s))).
  { induction tr as [|e tr IH]; intros s Hs HF; [exact HF|].
    cbn [run]. apply IH; [now apply step_currentSessionId|].
    destruct (step_history_saves e s Hs) as [[-> _]|[[-> _]|(now & t & r & -> & _)]].
    - constructor.
    - exact HF.
    - apply Forall_app; split; [exact HF|].
      constructor; [|constructor]. cbn. split; apply trim_idem. }
  apply G; [apply initial_currentSessionId|constructor].
Qed.

(** Between new conversations the history only grows at its end: over a
    run with no new-session event (first initialization's tools resolved,
    start-new-session), from a state with a session id, the history gains
    at most one turn per event, appended after the existing ones. *)
Theorem history_append_only (s : Svc) (tr : list Event) :
  currentSessionId s <> None ->
  forallb (fun e => negb (new_session_event e)) tr = true ->
  exists added, conversationHistory (run tr s) = app (conversationHistory s) added /\
                List.length added <= List.length tr.
Proof.
  revert s. induction tr as [|e tr IH]; intros s Hs Hf.
  - exists []. rewrite app_nil_r. split; [reflexivity|cbn; lia].
  - cbn in Hf. apply andb_prop in Hf as [He Hf].
    destruct (IH (step e s) (step_currentSessionId e s Hs) Hf) as (a & Ha & Hl).
    cbn [run]. rewrite Ha.
    destruct (step_history_saves e s Hs) as [[_ (now & [-> | ->])]|[[-> _]|(now & t & r & -> & _)]].
    + discriminate.
    + discriminate.
    + exists a. split; [reflexivity|cbn; lia].
    + exists (mkTurn now (trim t) (trim r) :: a). rewrite <- app_assoc.
      split; [reflexivity|cbn; lia].
Qed.

Lemma step_windowOpen (e : Event) (s : Svc) : windowOpen (step e s) = windowOpen s.
Proof.
  destruct e; unfold_svc; try rewrite (accumulate_shape m s); split_matches;
    cbn; congruence.
Qed.

Lemma replaySaves_snoc (clock : nat -> Z) (k : nat) (ms : list (string * Payload))
  (m : string * Payload) (st : list ConversationSession) :
  replaySaves clock k (app ms [m]) st =
  onSaveConversationTurn (clock (k + List.length ms)) (snd m) (replaySaves clock k ms st).
Proof.
  revert k st. induction ms as [|m' ms IH]; intros k st; cbn.
  - rewrite Nat.add_0_r. reflexivity.
  - rewrite IH, Nat.add_succ_r. reflexivity.
Qed.

Lemma getConversationSession_put (r : ConversationSession) (st : list ConversationSession) :
  getConversationSession (cs_sessionId r) (store_put r st) = Some r.
Proof. unfold getConversationSession, store_put. cbn. rewrite Z.eqb_refl. reflexivity. Qed.

(** With a window open, the renderer's conversation store mirrors the live
    conversation: in every reachable state with a non-empty history, the
    record stored under the current session id holds exactly that history,
    with the session id as its timestamp. *)
Theorem renderer_store_mirror (now0 : Z) (tr : list Event) (clock : nat -> Z) (sid : Z) :
  let s := run tr (initial now0 true) in
  currentSessionId s = Some sid ->
  conversationHistory s <> [] ->
  exists r, getConversationSession sid (rendererStore clock (rendererLog s)) = Some r /\
            cs_conversationHistory r = conversationHistory s /\
            cs_timestamp r = sid.
Proof.
  cbv zeta.
  assert (G : forall s, windowOpen s = true -> currentSessionId s <> None ->
    (forall sid, currentSessionId s = Some sid -> conversationHistory s <> [] ->
     exists r, getConversationSession sid (rendererStore clock (rendererLog s)) = Some r /\
            cs_conversationHistory r = conversationHistory s /\
            cs_timestamp r = sid) ->
    (forall sid, currentSessionId (run tr s) = Some sid -> conversationHistory (run tr s) <> [] ->
     exists r, getConversationSession sid (rendererStore clock (rendererLog (run tr s))) = Some r /\
            cs_conversationHistory r = conversationHistory (run tr s) /\
            cs_timestamp r = sid)).
  { induction tr as [|e tr IH]; intros s Hw Hs Hinv; [exact Hinv|].
    cbn [run]. apply IH; [rewrite step_windowOpen; exact Hw|now apply step_currentSessionId|].
    intros sid' Hsid' Hne.
    destruct (step_history_saves e s Hs)
      as [[Hh _]|[(Hh & Hi & Hl)|(now & t & r & Hh & Hi & Hl)]].
    - contradiction.
    - unfold rendererStore. rewrite Hl. rewrite Hh. apply Hinv; [congruence|congruence].
    - unfold rendererStore. rewrite Hl, Hw, replaySaves_snoc. cbn.
      rewrite Hi in Hsid'. rewrite Hsid'. cbn.
      eexists. split; [apply (getConversationSession_put (mkConversationSession sid' _ _ _))|].
      split; reflexivity. }
  intro Hsid. apply G; [reflexivity|apply initial_currentSessionId| |exact Hsid].
  intros sid' _ H. contradiction.
Qed.

(** *** Session initialization and reconnection *)

Lemma step_reconnectionLog (e : Event) (s : Svc) :
  reconnectionLog (step e s) = reconnectionLog s \/
  (reconnectionLog (step e s) = app (reconnectionLog s) [reconnectionAttempts (step e s)] /\
   reconnectionAttempts (step e s) = S (reconnectionAttempts s) /\
   reconnectionAttempts (step e s) <= maxReconnectionAttempts /\
   lastSessionParams s <> None).
Proof.
  destruct e; unfold_svc; try rewrite (accumulate_shape m s);
    try rewrite sendReconnectionContext_attempts; split_matches; cbn in *;
    ltb_facts; unfold maxReconnectionAttempts in *;
    first [left; reflexivity
          | right; split; [reflexivity|split; [reflexivity|split; [lia|congruence]]]].
Qed.


(** Reconnection attempts are numbered 1 to 3: in every reachable state
    each logged "Attempting reconnection n/3" has 1 <= n <= 3, and a step
    logs at most one attempt, numbered by the incremented counter, and only
    when session params are stored. *)
Theorem reconnection_attempt_log (now0 : Z) (w : bool) (tr : list Event) (e : Event) :
  let s := run tr (initial now0 w) in
  Forall (fun n => 1 <= n <= maxReconnectionAttempts) (reconnectionLog s) /\
  (reconnectionLog (step e s) = reconnectionLog s \/
   (reconnectionLog (step e s) = app (reconnectionLog s) [reconnectionAttempts (step e s)] /\
    reconnectionAttempts (step e s) = S (reconnectionAttempts s) /\
    lastSessionParams s <> None)).
Proof.
  cbv zeta. split.
  - assert (G : forall s, Forall (fun n => 1 <= n <= maxReconnectionAttempts) (reconnectionLog s) ->
      Forall (fun n => 1 <= n <= maxReconnectionAttempts) (reconnectionLog (run tr s))).
    { induction tr as [|e' tr IH]; intros s H; [exact H|]. cbn [run]. apply IH.
      destruct (step_reconnectionLog e' s) as [->|(-> & Ha & Hle & _)]; [exact H|].
      apply Forall_app; split; [exact H|]. constructor; [lia|constructor]. }
    apply G. constructor.
  - destruct (step_reconnectionLog e (run tr (initial now0 w))) as [H|(H1 & H2 & _ & H4)];
      [left; exact H|right; auto].
Qed.

Lemma init_pending_step (e : Event) (s : Svc) :
  isInitializingSession s = true -> settles_init e = false ->
  isInitializingSession (step e s) = true /\
  (lastSessionParams (step e s) = lastSessionParams s \/
   lastSessionParams (step e s) = None).
Proof.
  intros H He. destruct e; cbn in He; try discriminate; unfold_svc;
    try rewrite (accumulate_shape m s); split_matches; cbn in *;
    try congruence; (split; [congruence | first [left; congruence | right; congruence]]).
Qed.


(** While an initialization is pending (its connect has not settled),
    the pending flag stays set, the stored params are kept or cleared but
    never replaced, and any further initialize-gemini call does nothing. *)
Theorem init_pending_run (s : Svc) (tr : list Event) :
  isInitializingSession s = true ->
  forallb (fun e => negb (settles_init e)) tr = true ->
  let s' := run tr s in
  isInitializingSession s' = true /\
  (lastSessionParams s' = lastSessionParams s \/ lastSessionParams s' = None) /\
  (forall p, step (EvInitialize p) s' = s').
Proof.
  cbv zeta. revert s. induction tr as [|e tr IH]; intros s H Hf.
  - cbn [run]. split; [exact H|]. split; [left; reflexivity|].
    intro p. unfold step, initializeGeminiSession_begin. rewrite H. reflexivity.
  - cbn in Hf. apply andb_prop in Hf as [He Hf]. apply negb_true_iff in He.
    destruct (init_pending_step e s H He) as [H1 H2].
    destruct (IH (step e s) H1 Hf) as (H3 & H4 & H5).
    cbn [run]. split; [exact H3|]. split; [|exact H5].
    destruct H4 as [->| ->]; [|right; reflexivity].
    destruct H2 as [->| ->]; [left|right]; reflexivity.
Qed.

(** A reconnection delay that ends while an initialization is pending
    consumes an attempt without connecting: below the limit the counter
    goes up and the next attempt is logged; at the limit the renderer is
    told that the session is closed. *)
Theorem delay_during_init (s : Svc) (p : ReconnectionParams) :
  isInitializingSession s = true -> lastSessionParams s = Some p ->
  let s' := step EvReconnDelayDone s in
  (reconnectionAttempts s < maxReconnectionAttempts ->
   reconnectionAttempts s' = S (reconnectionAttempts s) /\
   reconnectionLog s' = app (reconnectionLog s) [S (reconnectionAttempts s)] /\
   isInitializingSession s' = true) /\
  (reconnectionAttempts s = maxReconnectionAttempts ->
   reconnectionLog s' = reconnectionLog s /\
   rendererLog s' = app (rendererLog s)
     (if windowOpen s then [("update-status", PStr "Session closed")] else [])).
Proof.
  intros H Hp. cbv zeta. cbn [step]. unfold attemptReconnection_afterDelay.
  rewrite Hp. unfold initializeGeminiSession_begin. rewrite H.
  unfold attemptReconnection_retry, attemptReconnection_begin. rewrite Hp.
  split; intro Ha.
  - apply Nat.ltb_lt in Ha. rewrite Ha. cbn. split; [reflexivity|split; [reflexivity|exact H]].
  - rewrite Ha. cbn. unfold status. rewrite sendToRenderer_eq. split; reflexivity.
Qed.

(** *** Handlers and renderer code *)

(** Text sent from the renderer: a blank text is refused with
    "Empty message" before reaching the handler; any other text reaches the
    session as its trimmed form, or fails with "No active Gemini session";
    the handler's "Invalid text message" error never comes back. *)
Theorem renderer_text_message (sendError : option string) (text : string) (s : Svc) :
  (trim text = "" ->
   renderer_sendTextMessage sendError text s = (s, IpcErr "Empty message")) /\
  (trim text <> "" ->
   renderer_sendTextMessage sendError text s =
   match currentSession s with
   | None => (s, IpcErr "No active Gemini session")
   | Some h => (sendInput h (InText (trim text)) s, sendResult sendError)
   end) /\
  (snd (renderer_sendTextMessage sendError text s) = IpcErr "Invalid text message" ->
   sendError = Some "Invalid text message").
Proof.
  unfold renderer_sendTextMessage, sendTextMessage, truthy.
  destruct (String.eqb_spec (trim text) "") as [E|E].
  - cbn. split; [reflexivity|]. split; [contradiction|]. discriminate.
  - cbn. assert (Ht : text <> "") by (intros ->; apply E; reflexivity).
    destruct (String.eqb_spec text "") as [|_]; [contradiction|].
    destruct (Nat.eqb_spec (String.length (trim text)) 0) as [L|_].
    { destruct (trim text); [contradiction|discriminate]. }
    cbn. split; [intro; contradiction|]. split; [reflexivity|].
    destruct (currentSession s); cbn; [|discriminate].
    destruct sendError; cbn; congruence.
Qed.

(** Google Search is disabled exactly when the first window's
    [localStorage] could be read and holds, under [googleSearchEnabled], a
    non-empty value other than "true"; otherwise it is enabled. *)
Theorem enabled_tools (hasWindow execOk : bool) (ls : PageStorage) :
  getEnabledTools hasWindow execOk ls = [] <->
  hasWindow = true /\ execOk = true /\
  exists items v, ls = StorageItems items /\
    getItem "googleSearchEnabled" items = Some v /\ v <> "" /\ v <> "true".
Proof.
  unfold getEnabledTools, getStoredSetting, storedSettingScript, truthy.
  split.
  - destruct hasWindow; [|discriminate]. destruct execOk; [|discriminate].
    destruct ls as [| |items]; try discriminate.
    destruct (getItem "googleSearchEnabled" items) as [v|] eqn:Hg; [|discriminate].
    destruct (String.eqb_spec v "") as [->|Hv]; [discriminate|]. cbn.
    destruct (String.eqb_spec v "true") as [|Hv']; [discriminate|].
    intros _. split; [reflexivity|]. split; [reflexivity|].
    exists items, v. repeat split; assumption.
  - intros (-> & -> & items & v & -> & Hg & Hv & Hv'). rewrite Hg.
    destruct (String.eqb_spec v "") as [|_]; [contradiction|]. cbn.
    destruct (String.eqb_spec v "true") as [|_]; [contradiction|reflexivity].
Qed.

(** start-new-session returns the new id, clears the history and the
    transcription, but keeps the model response buffer: a response being
    received when the new session starts becomes the AI response of the
    new session's first saved turn. *)
Theorem start_new_session_carry (now : Z) (s : Svc) (now' : Z) (t : string) :
  let '(s1, sessionId) := startNewSession now s in
  sessionId = Some now /\
  getCurrentSessionData s1 = (Some now, []) /\
  currentTranscription s1 = "" /\
  messageBuffer s1 = messageBuffer s /\
  (t <> "" -> messageBuffer s <> "" ->
   conversationHistory (onmessage now' (mkMessage (Some t) None true false) s1) =
   [mkTurn now' (trim t) (trim (messageBuffer s))]).
Proof.
  unfold startNewSession. set (s1 := initializeNewSession now s). cbv beta iota.
  split; [reflexivity|]. split; [reflexivity|].
  split; [reflexivity|]. split; [reflexivity|].
  intros Ht Hb.
  destruct (onmessage_flush now' (mkMessage (Some t) None true false) s1
              eq_refl ltac:(discriminate)) as (Hh & _).
  cbv zeta in Hh. rewrite Hh. subst s1.
  unfold onmessage_accumulate, truthy. cbn -[trim].
  destruct (String.eqb_spec t "") as [|_]; [contradiction|]. cbn -[trim].
  destruct (String.eqb_spec (messageBuffer s) "") as [|_]; [contradiction|].
  destruct (String.eqb_spec t "") as [|_]; [contradiction|]. reflexivity.
Qed.

(** *** Audio capture, image tokens, debug WAV files, conversation store *)

Lemma set_transportLog_twice (a b : list (nat * RealtimeInput)) (s : Svc) :
  set_transportLog a (set_transportLog b s) = set_transportLog a s.
Proof. now destruct s. Qed.

Lemma set_transportLog_same (s : Svc) : set_transportLog (transportLog s) s = s.
Proof. now destruct s. Qed.

Lemma fold_sendAudio (toBase64 : list byte -> string) (frames : list (list byte)) (s : Svc) :
  fold_left (fun s f => sendAudioToGemini (toBase64 f) s) frames s =
  set_transportLog (app (transportLog s) (audio_inputs toBase64 s frames)) s.
Proof.
  unfold audio_inputs. revert s. induction frames as [|f frames IH]; intro s; cbn.
  - destruct (currentSession s); rewrite app_nil_r, set_transportLog_same; reflexivity.
  - rewrite IH. unfold sendAudioToGemini, sendInput.
    destruct (currentSession s) as [h|] eqn:E; cbn.
    + rewrite E, set_transportLog_twice, <- app_assoc. reflexivity.
    + rewrite E. reflexivity.
Qed.

Lemma captureStream_send_eq (toBase64 : list byte -> string) (ds : list (list byte))
  (r : list byte) (s : Svc) :
  captureStream_send toBase64 r ds s =
  (snd (captureStream r ds),
   set_transportLog (app (transportLog s) (audio_inputs toBase64 s (fst (captureStream r ds)))) s).
Proof.
  revert r s. induction ds as [|d ds IH]; intros r s; cbn.
  - unfold audio_inputs. destruct (currentSession s); cbn;
      rewrite app_nil_r, set_transportLog_same; reflexivity.
  - unfold onStdoutData_send. destruct (onStdoutData r d) as [frames rest]. cbn.
    rewrite fold_sendAudio, IH.
    destruct (captureStream rest ds) as [frames' r'']. cbn.
    rewrite set_transportLog_twice. unfold audio_inputs. cbn.
    destruct (currentSession s); cbn;
      rewrite ?map_app, ?app_assoc, ?app_nil_r; reflexivity.
Qed.

(** Captured system audio reaches the session as one audio input per
    complete 9600-byte stereo slice of the whole stream, in order, each the
    left channel of its slice, however the stream is split into stdout
    events; nothing else of the service changes, and the buffer keeps the
    incomplete tail.  Without a session the frames are dropped. *)
Theorem audio_stream_sent (toBase64 : list byte -> string) (ds : list (list byte)) (s : Svc) :
  let '(rest, s') := captureStream_send toBase64 [] ds s in
  s' = set_transportLog
         (app (transportLog s)
            (audio_inputs toBase64 s (map leftSamples (slices CHUNK_SIZE (List.concat ds))))) s /\
  rest = skipn (CHUNK_SIZE * (List.length (List.concat ds) / CHUNK_SIZE)) (List.concat ds).
Proof.
  rewrite captureStream_send_eq, captureStream_spec by (cbn; apply CHUNK_SIZE_pos).
  cbn [fst snd]. rewrite app_nil_l. split; [|reflexivity].
  f_equal. f_equal. f_equal. apply map_ext, convertStereoToMono_leftSamples.
Qed.

Lemma ceil768_one (w : nat) : 1 <= w <= 768 -> (w + 767) / 768 = 1.
Proof. intro H. symmetry. apply (Nat.div_unique _ _ _ (w - 1)); lia. Qed.

Lemma ceil768_pos (w : nat) : 1 <= w -> 1 <= (w + 767) / 768.
Proof.
  intro H. rewrite <- (Nat.div_same 768) at 1 by lia. apply Nat.Div0.div_le_mono; lia.
Qed.

(** The token estimate of a screenshot is a multiple of 258, is 258 for
    any image of at most 768 x 768 pixels, and grows with each positive
    dimension. *)
Theorem image_tokens (w h w' h' : nat) :
  calculateImageTokens w h mod 258 = 0 /\
  (1 <= w <= 768 -> 1 <= h <= 768 -> calculateImageTokens w h = 258) /\
  (1 <= w <= w' -> 1 <= h <= h' ->
   calculateImageTokens w h <= calculateImageTokens w' h').
Proof.
  unfold calculateImageTokens. split; [|split].
  - destruct (_ && _); [reflexivity|]. apply Nat.Div0.mod_mul.
  - intros Hw Hh. destruct (_ && _); [reflexivity|].
    rewrite (ceil768_one w Hw), (ceil768_one h Hh). reflexivity.
  - intros Hw Hh.
    pose proof (ceil768_pos w ltac:(lia)). pose proof (ceil768_pos h ltac:(lia)).
    pose proof (ceil768_pos w' ltac:(lia)). pose proof (ceil768_pos h' ltac:(lia)).
    assert ((w + 767) / 768 <= (w' + 767) / 768) by (apply Nat.Div0.div_le_mono; lia).
    assert ((h + 767) / 768 <= (h' + 767) / 768) by (apply Nat.Div0.div_le_mono; lia).
    remember ((w + 767) / 768) as X. remember ((h + 767) / 768) as Y.
    remember ((w' + 767) / 768) as X'. remember ((h' + 767) / 768) as Y'.
    destruct (Nat.leb_spec w 384), (Nat.leb_spec h 384),
             (Nat.leb_spec w' 384), (Nat.leb_spec h' 384); cbn [andb]; nia.
Qed.

Lemma to_N_byte_of (n : N) : Byte.to_N (byte_of n) = (n mod 256)%N.
Proof.
  unfold byte_of. destruct (Byte.of_N (n mod 256)) as [b|] eqn:E.
  - apply Byte.to_of_N; exact E.
  - apply Byte.of_N_None_iff in E.
    pose proof (N.mod_lt n 256 ltac:(discriminate)). lia.
Qed.

Lemma byteZ_of_Z (z : Z) : (0 <= z)%Z ->
  Z.of_N (Byte.to_N (byte_of_Z z)) = (z mod 256)%Z.
Proof.
  intro H. unfold byte_of_Z. rewrite to_N_byte_of, N2Z.inj_mod, Z2N.id by lia.
  reflexivity.
Qed.

Lemma read32_window (l : list byte) (o : nat) :
  readUInt32LE l o = readUInt32LE (firstn 4 (skipn o l)) 0.
Proof.
  unfold readUInt32LE, byteZ. rewrite !nth_firstn, !nth_skipn. cbn.
  rewrite !Nat.add_0_r. reflexivity.
Qed.

Lemma read16_window (l : list byte) (o : nat) :
  readUInt16LE l o = readUInt16LE (firstn 2 (skipn o l)) 0.
Proof.
  unfold readUInt16LE, byteZ. rewrite !nth_firstn, !nth_skipn. cbn.
  rewrite !Nat.add_0_r. reflexivity.
Qed.

Lemma read32_le_bytes (v : Z) : (0 <= v < 2 ^ 32)%Z ->
  readUInt32LE (le_bytes 4 v) 0 = v.
Proof.
  intro H. unfold readUInt32LE, byteZ, le_bytes. cbn [map seq nth Nat.add].
  rewrite !byteZ_of_Z by (apply Z.shiftr_nonneg; lia).
  change (Z.of_nat (8 * 0)) with 0%Z. change (Z.of_nat (8 * 1)) with 8%Z.
  change (Z.of_nat (8 * 2)) with 16%Z. change (Z.of_nat (8 * 3)) with 24%Z.
  rewrite !Z.shiftr_div_pow2 by lia.
  change (2 ^ 0)%Z with 1%Z. change (2 ^ 8)%Z with 256%Z.
  change (2 ^ 16)%Z with (256 * 256)%Z. change (2 ^ 24)%Z with (256 * 256 * 256)%Z.
  rewrite Z.div_1_r, <- !Z.div_div by lia.
  pose proof (Z.div_mod v 256 ltac:(lia)).
  pose proof (Z.div_mod (v / 256) 256 ltac:(lia)).
  pose proof (Z.div_mod (v / 256 / 256) 256 ltac:(lia)).
  assert (Hq : (0 <= v / 256 / 256 / 256 < 256)%Z).
  { rewrite !Z.div_div by lia. split; [apply Z.div_pos; lia|].
    apply Z.div_lt_upper_bound; lia. }
  rewrite (Z.mod_small (v / 256 / 256 / 256)) by exact Hq.
  lia.
Qed.

Lemma writeString_ok (buf : list byte) (s : string) (o : nat) :
  o <= List.length buf -> writeString buf s o = Some (writeBytes buf o (bytes_of_string s)).
Proof. intro H. unfold writeString. apply Nat.leb_le in H. rewrite H. reflexivity. Qed.

Lemma writeUIntLE_ok (n : nat) (buf : list byte) (v : Z) (o : nat) :
  (0 <= v < 2 ^ Z.of_nat (8 * n))%Z -> o + n <= List.length buf ->
  writeUIntLE n buf v o = Some (writeBytes buf o (le_bytes n v)).
Proof.
  intros [H1 H2] H3. unfold writeUIntLE.
  apply Z.leb_le in H1. apply Z.ltb_lt in H2. apply Nat.leb_le in H3.
  rewrite H1, H2, H3. reflexivity.
Qed.

Lemma writeUIntLE_range (n : nat) (buf : list byte) (v : Z) (o : nat) :
  (2 ^ Z.of_nat (8 * n) <= v)%Z -> writeUIntLE n buf v o = None.
Proof.
  intro H. unfold writeUIntLE. apply Z.ltb_ge in H. rewrite H, andb_false_r.
  reflexivity.
Qed.

Lemma le_bytes_4 (v : Z) : exists a0 a1 a2 a3, le_bytes 4 v = [a0; a1; a2; a3].
Proof. do 4 eexists. reflexivity. Qed.

Lemma read32_of (v : Z) (l : list byte) (o : nat) (bs : list byte) :
  le_bytes 4 v = bs -> firstn 4 (skipn o l) = bs -> (0 <= v < 2 ^ 32)%Z ->
  readUInt32LE l o = v.
Proof.
  intros E1 E2 H. rewrite read32_window, E2, <- E1. apply read32_le_bytes, H.
Qed.

Ltac wav_len := apply Nat.leb_le; reflexivity.
Ltac wav_side := first [ wav_len | split; [apply Z.leb_le | apply Z.ltb_lt]; reflexivity ].

(** [pcmToWav] with its default format writes a 44-byte RIFF/WAVE header
    (PCM, mono, 24000 Hz, 48000 bytes/s, block 2, 16 bits, the chunk sizes)
    followed by the PCM data unchanged; it throws only when the data has
    2^32 - 36 bytes or more. *)
Theorem pcmToWav_layout (pcm : list byte) :
  let n := Z.of_nat (List.length pcm) in
  ((2 ^ 32 <= n + 36)%Z -> pcmToWav pcm 24000 1 16 = None) /\
  ((n + 36 < 2 ^ 32)%Z ->
   exists wav, pcmToWav pcm 24000 1 16 = Some wav /\
     List.length wav = 44 + List.length pcm /\
     skipn 44 wav = pcm /\
     firstn 4 wav = bytes_of_string "RIFF" /\
     readUInt32LE wav 4 = (n + 36)%Z /\
     firstn 4 (skipn 8 wav) = bytes_of_string "WAVE" /\
     firstn 4 (skipn 12 wav) = bytes_of_string "fmt " /\
     readUInt32LE wav 16 = 16%Z /\
     readUInt16LE wav 20 = 1%Z /\
     readUInt16LE wav 22 = 1%Z /\
     readUInt32LE wav 24 = 24000%Z /\
     readUInt32LE wav 28 = 48000%Z /\
     readUInt16LE wav 32 = 2%Z /\
     readUInt16LE wav 34 = 16%Z /\
     firstn 4 (skipn 36 wav) = bytes_of_string "data" /\
     readUInt32LE wav 40 = n).
Proof.
  cbv zeta. pose proof (Zle_0_nat (List.length pcm)) as Hn.
  split; intro Hr; unfold pcmToWav; cbv zeta.
  - rewrite writeString_ok by wav_len. cbn [obind].
    rewrite writeUIntLE_range by (cbn; lia). reflexivity.
  - rewrite writeString_ok by wav_len. cbn [obind].
    rewrite writeUIntLE_ok by first [wav_len | cbn -[Z.pow]; lia]. cbn [obind].
    rewrite writeString_ok by wav_len. cbn [obind].
    rewrite writeString_ok by wav_len. cbn [obind].
    rewrite writeUIntLE_ok by wav_side. cbn [obind].
    rewrite writeUIntLE_ok by wav_side. cbn [obind].
    rewrite writeUIntLE_ok by wav_side. cbn [obind].
    rewrite writeUIntLE_ok by wav_side. cbn [obind].
    rewrite writeUIntLE_ok by wav_side. cbn [obind].
    rewrite writeUIntLE_ok by wav_side. cbn [obind].
    rewrite writeUIntLE_ok by wav_side. cbn [obind].
    rewrite writeString_ok by wav_len. cbn [obind].
    rewrite writeUIntLE_ok by first [wav_len | cbn -[Z.pow]; lia]. cbn [obind].
    eexists. split; [reflexivity|].
    destruct (le_bytes_4 (Z.of_nat (List.length pcm) + 36)) as (a0 & a1 & a2 & a3 & E1).
    destruct (le_bytes_4 (Z.of_nat (List.length pcm))) as (c0 & c1 & c2 & c3 & E2).
    rewrite E1, E2.
    split; [rewrite length_app; reflexivity|].
    split; [reflexivity|]. split; [reflexivity|].
    split; [apply (read32_of _ _ _ _ E1); [reflexivity | lia]|].
    split; [reflexivity|]. split; [reflexivity|].
    split; [apply (read32_of _ _ _ _ eq_refl); [reflexivity | lia]|].
    split; [rewrite read16_window; reflexivity|].
    split; [rewrite read16_window; reflexivity|].
    split; [apply (read32_of _ _ _ _ eq_refl); [reflexivity | lia]|].
    split; [apply (read32_of _ _ _ _ eq_refl); [reflexivity | lia]|].
    split; [rewrite read16_window; reflexivity|].
    split; [rewrite read16_window; reflexivity|].
    split; [reflexivity|].
    apply (read32_of _ _ _ _ E2); [reflexivity | lia].
Qed.

Lemma find_filter_other (k j : Z) (st : list ConversationSession) :
  k <> j ->
  find (fun x => Z.eqb (cs_sessionId x) k)
    (filter (fun x => negb (Z.eqb (cs_sessionId x) j)) st) =
  find (fun x => Z.eqb (cs_sessionId x) k) st.
Proof.
  intro H. induction st as [|x st IH]; cbn; [reflexivity|].
  destruct (Z.eqb_spec (cs_sessionId x) j) as [Ej|Ej]; cbn.
  - destruct (Z.eqb_spec (cs_sessionId x) k); [congruence|exact IH].
  - destruct (Z.eqb (cs_sessionId x) k); [reflexivity|exact IH].
Qed.

Lemma find_filter_same (k : Z) (st : list ConversationSession) :
  find (fun x => Z.eqb (cs_sessionId x) k)
    (filter (fun x => negb (Z.eqb (cs_sessionId x) k)) st) = None.
Proof.
  induction st as [|x st IH]; cbn; [reflexivity|].
  destruct (Z.eqb (cs_sessionId x) k) eqn:E; cbn; [exact IH|]. rewrite E. exact IH.
Qed.

Lemma NoDup_map_filter (p : ConversationSession -> bool) (st : list ConversationSession) :
  NoDup (map cs_sessionId st) -> NoDup (map cs_sessionId (filter p st)).
Proof.
  induction st as [|x st IH]; cbn; intro H; [constructor|].
  inversion H as [|? ? Hx Hd]; subst.
  destruct (p x); cbn; [|auto]. constructor; [|auto].
  intro Hin. apply Hx. apply in_map_iff in Hin as (y & Hy & Hin).
  apply filter_In in Hin as [Hin _]. apply in_map_iff. eauto.
Qed.

(** The conversation store: a saved record is read back under its id, a
    save leaves the other ids unchanged, a deleted id reads as absent and a
    delete leaves the other ids unchanged; saves and deletes keep one record
    per id. *)
Theorem conversation_store_laws (r : ConversationSession) (k : Z) (st : list ConversationSession) :
  getConversationSession (cs_sessionId r) (store_put r st) = Some r /\
  (k <> cs_sessionId r ->
   getConversationSession k (store_put r st) = getConversationSession k st) /\
  getConversationSession k (deleteConversationSession k st) = None /\
  (forall j, j <> k ->
   getConversationSession j (deleteConversationSession k st) = getConversationSession j st) /\
  (NoDup (map cs_sessionId st) ->
   NoDup (map cs_sessionId (store_put r st)) /\
   NoDup (map cs_sessionId (deleteConversationSession k st))).
Proof.
  unfold getConversationSession, store_put, deleteConversationSession.
  split; [cbn; rewrite Z.eqb_refl; reflexivity|].
  split; [intro H; cbn; destruct (Z.eqb_spec (cs_sessionId r) k); [congruence|];
          apply find_filter_other; exact H|].
  split; [apply find_filter_same|].
  split; [intros j H; apply find_filter_other; congruence|].
  intro H. split; [|apply NoDup_map_filter, H].
  cbn. constructor; [|apply NoDup_map_filter, H].
  intro Hin. apply in_map_iff in Hin as (y & Hy & Hin).
  apply filter_In in Hin as [_ Hf]. rewrite Hy, Z.eqb_refl in Hf. discriminate.
Qed.

(** After close-session, no reconnection is attempted until the next
    initialize-gemini call: the params stay cleared, no attempt is logged,
    and a later close event only reports that the session is closed. *)
Theorem close_session_stops_reconnection (err : option string) (s : Svc)
  (tr : list Event) (reason : option string) :
  Forall (fun e => forall p, e <> EvInitialize p) tr ->
  let s1 := run tr (fst (closeSession err s)) in
  lastSessionParams s1 = None /\
  reconnectionLog s1 = reconnectionLog s /\
  step (EvClose reason) s1 =
  status (if isApiKeyError reason then "Session closed: Invalid API key"
          else "Session closed")
    (if isApiKeyError reason
     then set_reconnectionAttempts maxReconnectionAttempts s1 else s1).
Proof.
  intro Hall. cbv zeta.
  assert (H0 : lastSessionParams (fst (closeSession err s)) = None /\
               reconnectionLog (fst (closeSession err s)) = reconnectionLog s).
  { unfold closeSession, stopMacOSAudioCapture.
    destruct (systemAudioProc s), (currentSession s) eqn:E, err; cbn; rewrite ?E;
      cbn; split; reflexivity. }
  destruct H0 as [Hp Hl].
  destruct (run_params_none tr _ Hp Hall) as [H1 H2].
  split; [exact H1|]. split; [congruence|].
  cbn [step]. unfold onclose. rewrite H1.
  destruct (isApiKeyError reason); [|reflexivity].
  f_equal. destruct (run tr (fst (closeSession err s))); cbn in *. subst. reflexivity.
Qed.

(** ** Instances of the further properties on concrete inputs *)

Lemma renderer_store_mirror_witness :
  let tr := [EvMessage 2%Z (mkMessage (Some " hi") (Some [Some "yes "]) true false)] in
  let s := run tr (initial 1%Z true) in
  currentSessionId s = Some 1%Z /\ conversationHistory s <> [] /\
  exists r, getConversationSession 1 (rendererStore (fun _ => 5%Z) (rendererLog s)) = Some r /\
            cs_conversationHistory r = conversationHistory s /\ cs_timestamp r = 1%Z.
Proof.
  cbv zeta. split; [reflexivity|]. split; [vm_compute; discriminate|].
  apply renderer_store_mirror; [reflexivity|vm_compute; discriminate].
Defined.

Lemma history_append_only_witness :
  let s := initial 0 true in
  let tr := [EvMessage 1 (mkMessage (Some "q") (Some [Some "a"]) true false);
             EvClose None] in
  currentSessionId s <> None /\
  forallb (fun e => negb (new_session_event e)) tr = true /\
  exists added, conversationHistory (run tr s) = app (conversationHistory s) added /\
                List.length added <= List.length tr.
Proof.
  cbv zeta. split; [discriminate|]. split; [reflexivity|].
  apply history_append_only; [discriminate|reflexivity].
Defined.

Lemma init_pending_run_witness :
  let p := mkParams "key" "" "interview" "en-US" in
  let s := step (EvInitialize p) (initial 0 true) in
  let tr := [EvClose None; EvReconnDelayDone; EvCloseSession None] in
  isInitializingSession s = true /\
  forallb (fun e => negb (settles_init e)) tr = true /\
  let s' := run tr s in
  isInitializingSession s' = true /\
  (lastSessionParams s' = lastSessionParams s \/ lastSessionParams s' = None) /\
  (forall p, step (EvInitialize p) s' = s').
Proof.
  cbv zeta. split; [reflexivity|]. split; [reflexivity|].
  apply init_pending_run; reflexivity.
Defined.

Lemma delay_during_init_witness :
  let p := mkParams "key" "" "interview" "en-US" in
  let s := run [EvInitialize p; EvToolsResolved false 1; EvInitConnected (Some 7);
                EvClose None; EvInitialize p] (initial 0 true) in
  isInitializingSession s = true /\ lastSessionParams s = Some p /\
  reconnectionAttempts s < maxReconnectionAttempts /\
  let s' := step EvReconnDelayDone s in
  reconnectionAttempts s' = S (reconnectionAttempts s) /\
  reconnectionLog s' = app (reconnectionLog s) [S (reconnectionAttempts s)] /\
  isInitializingSession s' = true.
Proof.
  cbv zeta. split; [reflexivity|]. split; [reflexivity|].
  split; [vm_compute; lia|].
  refine (proj1 (delay_during_init _ _ _ _) _);
    first [reflexivity | vm_compute; lia].
Defined.

Lemma close_session_stops_reconnection_witness :
  let p := mkParams "key" "" "interview" "en-US" in
  let s := run [EvInitialize p; EvToolsResolved false 1; EvInitConnected (Some 7)]
               (initial 0 true) in
  let tr := [EvMessage 2 (mkMessage None None false true); EvReconnDelayDone] in
  Forall (fun e => forall p, e <> EvInitialize p) tr /\
  let s1 := run tr (fst (closeSession None s)) in
  lastSessionParams s1 = None /\
  reconnectionLog s1 = reconnectionLog s /\
  step (EvClose None) s1 =
  status (if isApiKeyError None then "Session closed: Invalid API key"
          else "Session closed")
    (if isApiKeyError None
     then set_reconnectionAttempts maxReconnectionAttempts s1 else s1).
Proof.
  intros p s tr.
  assert (Hf : Forall (fun e => forall p, e <> EvInitialize p) tr).
  { repeat constructor; intros p' H; discriminate H. }
  split; [exact Hf|].
  intro s1.
  exact (close_session_stops_reconnection None s tr None Hf).
Defined.
